(** * Data-profile analyzer: statistics records, profile buckets, drift counts

    A shallow embedding of [evidently/analyzers/data_profile_analyzer.py]:
    the record [FeaturesProfileStats], the container [DataProfileStats] with
    its two access paths, the per-column calculator [_get_features_stats],
    the per-dataset profiler [_calculate_stats] and the analyzer entry point
    [calculate] with its reference-versus-current loop over the categorical
    features.

    The pandas and numpy operations the analyzer calls ([isnull], [unique],
    [nunique], [value_counts], [describe], [hasnans], [np.isinf],
    [np.round]) are library code; each of them has a definition of its own
    below, with the conventions it follows written next to it. *)

From Stdlib Require Import ZArith QArith Qround Qabs Lqa Lia Bool.
From Stdlib Require Import List Sorted Permutation.
From stdpp Require Import base option list strings gmap fin_maps.
Import ListNotations.

Local Close Scope Q_scope.
Local Open Scope string_scope.
Local Open Scope list_scope.
Local Open Scope Z_scope.

(** ** Column values *)

(** One cell of a pandas column, as Python sees it once the cell is taken
    out of the column.

    - [NA obj] is the missing marker ([nan], [None], [NaT]).  [obj] names
      the Python object: an object-dtype column stores references, so
      every read hands out the stored object, and [np.nan], [None] and
      [pd.NaT] are each one object for the whole process; a [float64]
      column boxes a new object on every read, which is rendered here by
      identities that occur nowhere else.
    - [Inf neg] is an infinite float, [Num q] a finite number (a finite
      float is taken as the rational it denotes), [Str s] a string and
      [Time t] a timestamp. *)
Inductive scalar : Type :=
  | NA (obj : nat)
  | Inf (neg : bool)
  | Num (q : Q)
  | Str (s : string)
  | Time (t : Z).

(** [pd.isnull] on one value. *)
Definition isnull (v : scalar) : bool :=
  match v with NA _ => true | _ => false end.

Definition notnull (v : scalar) : bool := negb (isnull v).

(** [np.isinf] on one value; it is defined on numeric arrays, entries of
    another kind are outside its domain and count as not infinite. *)
Definition isinf (v : scalar) : bool :=
  match v with Inf _ => true | _ => false end.

(** Equality of two values as pandas' hash tables see it ([unique],
    [nunique], [value_counts]): all missing markers are one key. *)
Definition pd_eqb (a b : scalar) : bool :=
  match a, b with
  | NA _, NA _ => true
  | Inf s, Inf s' => Bool.eqb s s'
  | Num x, Num y => Qeq_bool x y
  | Str x, Str y => String.eqb x y
  | Time x, Time y => Z.eqb x y
  | _, _ => false
  end.

(** Equality of two values as a Python [set] sees it: the same object, or
    [==].  A [nan] is not [==] to itself, so two missing markers match
    only when they are one object. *)
Definition py_eqb (a b : scalar) : bool :=
  match a, b with
  | NA i, NA j => Nat.eqb i j
  | Inf s, Inf s' => Bool.eqb s s'
  | Num x, Num y => Qeq_bool x y
  | Str x, Str y => String.eqb x y
  | Time x, Time y => Z.eqb x y
  | _, _ => false
  end.

(** ** Exceptions *)

Inductive exn : Type :=
  | KeyError (item : string)
  | IndexError.

Inductive result (A : Type) : Type :=
  | Ok (a : A)
  | Raise (e : exn).
Arguments Ok {A} a.
Arguments Raise {A} e.

Definition bind {A B : Type} (c : result A) (k : A -> result B) : result B :=
  match c with
  | Ok a => k a
  | Raise e => Raise e
  end.

Notation "'let!' x ':=' c 'in' k" := (bind c (fun x => k))
  (at level 10, x name, c at level 100, k at level 200).

(** ** Floats produced by [describe] *)

(** A float of the summary statistics: not-a-number, an infinity, or a
    finite value taken as a rational. *)
Inductive float : Type :=
  | FNaN
  | FInf (neg : bool)
  | Fin (q : Q).

(** ** [FeaturesProfileStats] *)

Record FeaturesProfileStats : Type := {
  feature_type : string;
  count : Z;
  infinite_count : option Z;
  infinite_fraction : option Q;
  missing_count : option Z;
  missing_fraction : option Q;
  unique : option Z;
  unique_fraction : option Q;
  percentile_25 : option float;
  percentile_50 : option float;
  percentile_75 : option float;
  max : option scalar;
  min : option scalar;
  mean : option float;
  most_common_value : option scalar;
  most_common_value_fraction : option Q;
  std : option float;
  most_common_not_null_value : option scalar;
  most_common_not_null_value_fraction : option Q;
  new_in_current_values_count : option Z;
  unused_in_current_values_count : option Z
}.

(** [FeaturesProfileStats(feature_type=feature_type)]: the dataclass
    defaults, [count = 0] and [None] everywhere else. *)
Definition new_stats (ft : string) : FeaturesProfileStats :=
  {| feature_type := ft; count := 0;
     infinite_count := None; infinite_fraction := None;
     missing_count := None; missing_fraction := None;
     unique := None; unique_fraction := None;
     percentile_25 := None; percentile_50 := None; percentile_75 := None;
     max := None; min := None; mean := None;
     most_common_value := None; most_common_value_fraction := None;
     std := None;
     most_common_not_null_value := None;
     most_common_not_null_value_fraction := None;
     new_in_current_values_count := None;
     unused_in_current_values_count := None |}.

Definition is_datetime (r : FeaturesProfileStats) : bool :=
  String.eqb (feature_type r) "datetime".
Definition is_numeric (r : FeaturesProfileStats) : bool :=
  String.eqb (feature_type r) "num".
Definition is_category (r : FeaturesProfileStats) : bool :=
  String.eqb (feature_type r) "cat".

(** ** [DataProfileStats] *)

Record DataProfileStats : Type := {
  num_features_stats : option (gmap string FeaturesProfileStats);
  cat_features_stats : option (gmap string FeaturesProfileStats);
  datetime_features_stats : option (gmap string FeaturesProfileStats);
  target_stats : option (gmap string FeaturesProfileStats)
}.

(** The tuple both methods iterate over. *)
Definition buckets (self : DataProfileStats)
  : list (option (gmap string FeaturesProfileStats)) :=
  [ target_stats self; datetime_features_stats self;
    cat_features_stats self; num_features_stats self ].

(** [dict.update]: the keys of [features] take their value from
    [features], the others keep the one they had. *)
Definition dict_update (result features : gmap string FeaturesProfileStats)
  : gmap string FeaturesProfileStats :=
  features ∪ result.

Definition get_all_features (self : DataProfileStats)
  : gmap string FeaturesProfileStats :=
  fold_left
    (fun result features =>
       match features with
       | Some features => dict_update result features
       | None => result
       end)
    (buckets self) ∅.

(** The loop of [__getitem__] over the buckets still to be tried. *)
Fixpoint getitem_in (bs : list (option (gmap string FeaturesProfileStats)))
    (item : string) : result FeaturesProfileStats :=
  match bs with
  | [] => Raise (KeyError item)
  | features :: rest =>
      match features with
      | Some features =>
          match features !! item with
          | Some r => Ok r
          | None => getitem_in rest item
          end
      | None => getitem_in rest item
      end
  end.

Definition getitem (self : DataProfileStats) (item : string)
  : result FeaturesProfileStats :=
  getitem_in (buckets self) item.

(** ** Rounding and division *)

(** [a / b] on two Python ints with [b > 0]: the float result, taken as
    the exact quotient. *)
Definition truediv (a b : Z) : Q := (inject_Z a / inject_Z b)%Q.

(** Round to the nearest integer, a tie to the even neighbour. *)
Definition rint (x : Q) : Z :=
  let f := Qfloor x in
  match Qcompare (x - inject_Z f) (1 # 2) with
  | Lt => f
  | Gt => f + 1
  | Eq => if Z.even f then f else f + 1
  end.

(** [np.round(x, 2)] on a finite float: scale by 100, round to the nearest
    integer, scale back; carried out on the exact value. *)
Definition np_round2 (x : Q) : Q := Qred (rint (x * 100) # 100).

(** [np.round(x, 2)] on any float: an infinity and a not-a-number pass
    through. *)
Definition np_round (x : float) : float :=
  match x with
  | Fin q => Fin (np_round2 q)
  | _ => x
  end.

(** The standard deviation handed out by [describe]: not-a-number, or the
    square root of the variance [v], which in general is not rational and
    is kept as its radicand. *)
Inductive root : Type :=
  | RootNaN
  | Root (v : Q).

(** The integer nearest to the square root of [w >= 0], a tie to the even
    neighbour: with [s] the integer square root, the root is below
    [s + 1/2] exactly when [w < s^2 + s + 1/4]. *)
Definition rint_sqrt (w : Q) : Z :=
  let s := Z.sqrt (Qfloor w) in
  match Qcompare w (inject_Z (s * s + s) + (1 # 4)) with
  | Lt => s
  | Gt => s + 1
  | Eq => if Z.even s then s else s + 1
  end.

(** [np.round(np.sqrt(v), 2)], carried out on the exact value. *)
Definition np_round2_sqrt (v : Q) : Q := Qred (rint_sqrt (v * 10000) # 100).

(** ** Column operations of pandas *)

Definition series : Type := list scalar.

(** [feature.isnull().sum()] *)
Definition isnull_sum (feature : series) : Z :=
  Z.of_nat (length (List.filter isnull feature)).

(** [np.sum(np.isinf(feature))] *)
Definition isinf_sum (feature : series) : Z :=
  Z.of_nat (length (List.filter isinf feature)).

(** [feature.hasnans] *)
Definition hasnans (feature : series) : bool := existsb isnull feature.

Definition dropna (feature : series) : series := List.filter notnull feature.

(** [feature.unique()]: the distinct values in order of first appearance;
    the missing markers are one value, represented by the first of them. *)
Fixpoint unique_values (feature : series) : series :=
  match feature with
  | [] => []
  | x :: rest => x :: List.filter (fun y => negb (pd_eqb x y)) (unique_values rest)
  end.

(** [feature.nunique()]: distinct values, the missing marker left out. *)
Definition nunique (feature : series) : Z :=
  Z.of_nat (length (unique_values (dropna feature))).

(** Number of cells of [feature] holding the value [k]. *)
Definition occurrences (k : scalar) (feature : series) : nat :=
  length (List.filter (pd_eqb k) feature).


(** One row of a frequency table: the value (the index) and its count. *)
Definition entry : Type := (scalar * nat)%type.

(** Insertion into a table sorted by descending count; the new row goes in
    front of the first row whose count is not larger. *)
Fixpoint insert_desc (e : entry) (table : list entry) : list entry :=
  match table with
  | [] => [e]
  | h :: rest =>
      if (snd h <=? snd e)%nat then e :: h :: rest
      else h :: insert_desc e rest
  end.

Definition sort_desc (table : list entry) : list entry :=
  fold_right insert_desc [] table.

(** [feature.value_counts(dropna=False)]: one row per distinct value, the
    missing marker included, counted in order of first appearance and then
    sorted by descending count with a stable sort. *)
Definition value_counts (feature : series) : list entry :=
  sort_desc (map (fun k => (k, occurrences k feature)) (unique_values feature)).

(** [value_counts.index[i]] together with [value_counts.iloc[i]]. *)
Definition row (table : list entry) (i : nat) : result entry :=
  match nth_error table i with
  | Some e => Ok e
  | None => Raise IndexError
  end.

(** The order [max()] and [min()] compare with.  The calculator takes the
    extrema of numeric and of datetime columns only: numbers and
    infinities are ordered by value, timestamps by time, and nothing else
    is ordered. *)
Definition scalar_ltb (a b : scalar) : bool :=
  match a, b with
  | Num x, Num y => negb (Qle_bool y x)
  | Inf true, Num _ => true
  | Inf true, Inf false => true
  | Num _, Inf false => true
  | Time x, Time y => Z.ltb x y
  | _, _ => false
  end.

(** Leftmost extremum of a non-empty run of values. *)
Definition keep_larger (m y : scalar) : scalar := if scalar_ltb m y then y else m.
Definition keep_smaller (m y : scalar) : scalar := if scalar_ltb y m then y else m.

(** [feature.max()] and [feature.min()]: missing values are skipped; on a
    column with nothing else the answer is a not-a-number. *)
Definition series_max (feature : series) : scalar :=
  match dropna feature with
  | [] => NA 0
  | x :: rest => fold_left keep_larger rest x
  end.

Definition series_min (feature : series) : scalar :=
  match dropna feature with
  | [] => NA 0
  | x :: rest => fold_left keep_smaller rest x
  end.

(** *** Arithmetic of the summary statistics *)

Definition to_float (v : scalar) : float :=
  match v with
  | Num q => Fin q
  | Inf neg => FInf neg
  | _ => FNaN
  end.

Definition fneg (a : float) : float :=
  match a with
  | FNaN => FNaN
  | FInf neg => FInf (negb neg)
  | Fin x => Fin (- x)
  end.

Definition fadd (a b : float) : float :=
  match a, b with
  | FNaN, _ | _, FNaN => FNaN
  | FInf s, FInf s' => if Bool.eqb s s' then FInf s else FNaN
  | FInf s, Fin _ | Fin _, FInf s => FInf s
  | Fin x, Fin y => Fin (x + y)
  end.

Definition fsub (a b : float) : float := fadd a (fneg b).

(** Product of a float and a finite factor. *)
Definition fmulq (a : float) (t : Q) : float :=
  match a with
  | FNaN => FNaN
  | FInf neg =>
      match Qcompare t 0 with
      | Eq => FNaN
      | Gt => FInf neg
      | Lt => FInf (negb neg)
      end
  | Fin x => Fin (x * t)
  end.

(** Quotient of a float by a positive count. *)
Definition fdivz (a : float) (n : Z) : float :=
  match a with
  | Fin x => Fin (x / inject_Z n)
  | _ => a
  end.

Definition fleb (a b : float) : bool :=
  match a, b with
  | _, FNaN => true
  | FNaN, _ => false
  | FInf true, _ => true
  | _, FInf false => true
  | FInf false, _ => false
  | _, FInf true => false
  | Fin x, Fin y => Qle_bool x y
  end.

Fixpoint insert_asc (x : float) (l : list float) : list float :=
  match l with
  | [] => [x]
  | h :: rest => if fleb x h then x :: h :: rest else h :: insert_asc x rest
  end.

Definition sort_asc (l : list float) : list float := fold_right insert_asc [] l.

(** numpy's linear interpolation between two neighbours. *)
Definition lerp (a b : float) (t : Q) : float :=
  let diff_b_a := fsub b a in
  if Qle_bool (1 # 2) t then fsub b (fmulq diff_b_a (1 - t))
  else fadd a (fmulq diff_b_a t).

(** [quantile(q)] with the default linear interpolation, on the
    non-missing values [xs]. *)
Definition quantile (xs : list float) (q : Q) : float :=
  let n := Z.of_nat (length xs) in
  if n =? 0 then FNaN
  else
    let virtual := (q * inject_Z (n - 1))%Q in
    let previous := Qfloor virtual in
    let next := Z.min (previous + 1) (n - 1) in
    let gamma := (virtual - inject_Z previous)%Q in
    let sorted := sort_asc xs in
    lerp (nth (Z.to_nat previous) sorted FNaN) (nth (Z.to_nat next) sorted FNaN) gamma.

Fixpoint finite_values (xs : list float) : option (list Q) :=
  match xs with
  | [] => Some []
  | Fin q :: rest =>
      match finite_values rest with
      | Some qs => Some (q :: qs)
      | None => None
      end
  | _ :: _ => None
  end.

Definition fsum (xs : list float) : float := fold_left fadd xs (Fin 0).
Definition qsum (qs : list Q) : Q := fold_left Qplus qs 0%Q.

(** [mean()]: the sum of the non-missing values over their number. *)
Definition series_mean (feature : series) : float :=
  let xs := map to_float (dropna feature) in
  let n := Z.of_nat (length xs) in
  if n =? 0 then FNaN else fdivz (fsum xs) n.

Definition arithmetic_mean (qs : list Q) : Q :=
  (qsum qs / inject_Z (Z.of_nat (length qs)))%Q.

(** The squared deviations from the mean, summed and divided by [n - 1]. *)
Definition sample_variance (qs : list Q) : Q :=
  let avg := arithmetic_mean qs in
  let sqr := map (fun x => ((avg - x) * (avg - x))%Q) qs in
  (qsum sqr / inject_Z (Z.of_nat (length qs) - 1))%Q.

(** [std()], one delta degree of freedom: the square root of the sample
    variance.  With fewer than two values the divisor is not positive, and
    with an infinite value a deviation is [inf - inf]; both give a
    not-a-number. *)
Definition series_std (feature : series) : root :=
  match finite_values (map to_float (dropna feature)) with
  | Some qs =>
      if Z.of_nat (length qs) <? 2 then RootNaN
      else Root (sample_variance qs)
  | None => RootNaN
  end.

(** The entries of [dict(feature.describe())] the calculator reads. *)
Record summary : Type := {
  stat_count : Z;
  stat_mean : float;
  stat_std : root;
  stat_25 : float;
  stat_50 : float;
  stat_75 : float
}.

Definition describe (feature : series) : summary :=
  let xs := map to_float (dropna feature) in
  {| stat_count := Z.of_nat (length (dropna feature));
     stat_mean := series_mean feature;
     stat_std := series_std feature;
     stat_25 := quantile xs (1 # 4);
     stat_50 := quantile xs (1 # 2);
     stat_75 := quantile xs (3 # 4) |}.

(** [np.isnan(std)] and [np.round(std, 2)] on the standard deviation. *)
Definition root_isnan (s : root) : bool :=
  match s with RootNaN => true | Root _ => false end.

Definition np_round_root (s : root) : float :=
  match s with
  | RootNaN => FNaN
  | Root v => Fin (np_round2_sqrt v)
  end.

(** *** Attribute assignment

    [set_f v r] is the record after [r.f = v]. *)

Definition set_count (v : Z) (r : FeaturesProfileStats) : FeaturesProfileStats :=
  {| feature_type := feature_type r; count := v;
     infinite_count := infinite_count r;
     infinite_fraction := infinite_fraction r;
     missing_count := missing_count r;
     missing_fraction := missing_fraction r; unique := unique r;
     unique_fraction := unique_fraction r; percentile_25 := percentile_25 r;
     percentile_50 := percentile_50 r; percentile_75 := percentile_75 r;
     max := max r; min := min r; mean := mean r;
     most_common_value := most_common_value r;
     most_common_value_fraction := most_common_value_fraction r;
     std := std r;
     most_common_not_null_value := most_common_not_null_value r;
     most_common_not_null_value_fraction := most_common_not_null_value_fraction r;
     new_in_current_values_count := new_in_current_values_count r;
     unused_in_current_values_count := unused_in_current_values_count r |}.

Definition set_infinite_count (v : option Z) (r : FeaturesProfileStats) : FeaturesProfileStats :=
  {| feature_type := feature_type r; count := count r; infinite_count := v;
     infinite_fraction := infinite_fraction r;
     missing_count := missing_count r;
     missing_fraction := missing_fraction r; unique := unique r;
     unique_fraction := unique_fraction r; percentile_25 := percentile_25 r;
     percentile_50 := percentile_50 r; percentile_75 := percentile_75 r;
     max := max r; min := min r; mean := mean r;
     most_common_value := most_common_value r;
     most_common_value_fraction := most_common_value_fraction r;
     std := std r;
     most_common_not_null_value := most_common_not_null_value r;
     most_common_not_null_value_fraction := most_common_not_null_value_fraction r;
     new_in_current_values_count := new_in_current_values_count r;
     unused_in_current_values_count := unused_in_current_values_count r |}.

Definition set_infinite_fraction (v : option Q) (r : FeaturesProfileStats) : FeaturesProfileStats :=
  {| feature_type := feature_type r; count := count r;
     infinite_count := infinite_count r; infinite_fraction := v;
     missing_count := missing_count r;
     missing_fraction := missing_fraction r; unique := unique r;
     unique_fraction := unique_fraction r; percentile_25 := percentile_25 r;
     percentile_50 := percentile_50 r; percentile_75 := percentile_75 r;
     max := max r; min := min r; mean := mean r;
     most_common_value := most_common_value r;
     most_common_value_fraction := most_common_value_fraction r;
     std := std r;
     most_common_not_null_value := most_common_not_null_value r;
     most_common_not_null_value_fraction := most_common_not_null_value_fraction r;
     new_in_current_values_count := new_in_current_values_count r;
     unused_in_current_values_count := unused_in_current_values_count r |}.

Definition set_missing_count (v : option Z) (r : FeaturesProfileStats) : FeaturesProfileStats :=
  {| feature_type := feature_type r; count := count r;
     infinite_count := infinite_count r;
     infinite_fraction := infinite_fraction r; missing_count := v;
     missing_fraction := missing_fraction r; unique := unique r;
     unique_fraction := unique_fraction r; percentile_25 := percentile_25 r;
     percentile_50 := percentile_50 r; percentile_75 := percentile_75 r;
     max := max r; min := min r; mean := mean r;
     most_common_value := most_common_value r;
     most_common_value_fraction := most_common_value_fraction r;
     std := std r;
     most_common_not_null_value := most_common_not_null_value r;
     most_common_not_null_value_fraction := most_common_not_null_value_fraction r;
     new_in_current_values_count := new_in_current_values_count r;
     unused_in_current_values_count := unused_in_current_values_count r |}.

Definition set_missing_fraction (v : option Q) (r : FeaturesProfileStats) : FeaturesProfileStats :=
  {| feature_type := feature_type r; count := count r;
     infinite_count := infinite_count r;
     infinite_fraction := infinite_fraction r;
     missing_count := missing_count r; missing_fraction := v;
     unique := unique r; unique_fraction := unique_fraction r;
     percentile_25 := percentile_25 r; percentile_50 := percentile_50 r;
     percentile_75 := percentile_75 r; max := max r; min := min r;
     mean := mean r; most_common_value := most_common_value r;
     most_common_value_fraction := most_common_value_fraction r;
     std := std r;
     most_common_not_null_value := most_common_not_null_value r;
     most_common_not_null_value_fraction := most_common_not_null_value_fraction r;
     new_in_current_values_count := new_in_current_values_count r;
     unused_in_current_values_count := unused_in_current_values_count r |}.

Definition set_unique (v : option Z) (r : FeaturesProfileStats) : FeaturesProfileStats :=
  {| feature_type := feature_type r; count := count r;
     infinite_count := infinite_count r;
     infinite_fraction := infinite_fraction r;
     missing_count := missing_count r;
     missing_fraction := missing_fraction r; unique := v;
     unique_fraction := unique_fraction r; percentile_25 := percentile_25 r;
     percentile_50 := percentile_50 r; percentile_75 := percentile_75 r;
     max := max r; min := min r; mean := mean r;
     most_common_value := most_common_value r;
     most_common_value_fraction := most_common_value_fraction r;
     std := std r;
     most_common_not_null_value := most_common_not_null_value r;
     most_common_not_null_value_fraction := most_common_not_null_value_fraction r;
     new_in_current_values_count := new_in_current_values_count r;
     unused_in_current_values_count := unused_in_current_values_count r |}.

Definition set_unique_fraction (v : option Q) (r : FeaturesProfileStats) : FeaturesProfileStats :=
  {| feature_type := feature_type r; count := count r;
     infinite_count := infinite_count r;
     infinite_fraction := infinite_fraction r;
     missing_count := missing_count r;
     missing_fraction := missing_fraction r; unique := unique r;
     unique_fraction := v; percentile_25 := percentile_25 r;
     percentile_50 := percentile_50 r; percentile_75 := percentile_75 r;
     max := max r; min := min r; mean := mean r;
     most_common_value := most_common_value r;
     most_common_value_fraction := most_common_value_fraction r;
     std := std r;
     most_common_not_null_value := most_common_not_null_value r;
     most_common_not_null_value_fraction := most_common_not_null_value_fraction r;
     new_in_current_values_count := new_in_current_values_count r;
     unused_in_current_values_count := unused_in_current_values_count r |}.

Definition set_percentile_25 (v : option float) (r : FeaturesProfileStats) : FeaturesProfileStats :=
  {| feature_type := feature_type r; count := count r;
     infinite_count := infinite_count r;
     infinite_fraction := infinite_fraction r;
     missing_count := missing_count r;
     missing_fraction := missing_fraction r; unique := unique r;
     unique_fraction := unique_fraction r; percentile_25 := v;
     percentile_50 := percentile_50 r; percentile_75 := percentile_75 r;
     max := max r; min := min r; mean := mean r;
     most_common_value := most_common_value r;
     most_common_value_fraction := most_common_value_fraction r;
     std := std r;
     most_common_not_null_value := most_common_not_null_value r;
     most_common_not_null_value_fraction := most_common_not_null_value_fraction r;
     new_in_current_values_count := new_in_current_values_count r;
     unused_in_current_values_count := unused_in_current_values_count r |}.

Definition set_percentile_50 (v : option float) (r : FeaturesProfileStats) : FeaturesProfileStats :=
  {| feature_type := feature_type r; count := count r;
     infinite_count := infinite_count r;
     infinite_fraction := infinite_fraction r;
     missing_count := missing_count r;
     missing_fraction := missing_fraction r; unique := unique r;
     unique_fraction := unique_fraction r; percentile_25 := percentile_25 r;
     percentile_50 := v; percentile_75 := percentile_75 r; max := max r;
     min := min r; mean := mean r; most_common_value := most_common_value r;
     most_common_value_fraction := most_common_value_fraction r;
     std := std r;
     most_common_not_null_value := most_common_not_null_value r;
     most_common_not_null_value_fraction := most_common_not_null_value_fraction r;
     new_in_current_values_count := new_in_current_values_count r;
     unused_in_current_values_count := unused_in_current_values_count r |}.

Definition set_percentile_75 (v : option float) (r : FeaturesProfileStats) : FeaturesProfileStats :=
  {| feature_type := feature_type r; count := count r;
     infinite_count := infinite_count r;
     infinite_fraction := infinite_fraction r;
     missing_count := missing_count r;
     missing_fraction := missing_fraction r; unique := unique r;
     unique_fraction := unique_fraction r; percentile_25 := percentile_25 r;
     percentile_50 := percentile_50 r; percentile_75 := v; max := max r;
     min := min r; mean := mean r; most_common_value := most_common_value r;
     most_common_value_fraction := most_common_value_fraction r;
     std := std r;
     most_common_not_null_value := most_common_not_null_value r;
     most_common_not_null_value_fraction := most_common_not_null_value_fraction r;
     new_in_current_values_count := new_in_current_values_count r;
     unused_in_current_values_count := unused_in_current_values_count r |}.

Definition set_max (v : option scalar) (r : FeaturesProfileStats) : FeaturesProfileStats :=
  {| feature_type := feature_type r; count := count r;
     infinite_count := infinite_count r;
     infinite_fraction := infinite_fraction r;
     missing_count := missing_count r;
     missing_fraction := missing_fraction r; unique := unique r;
     unique_fraction := unique_fraction r; percentile_25 := percentile_25 r;
     percentile_50 := percentile_50 r; percentile_75 := percentile_75 r;
     max := v; min := min r; mean := mean r;
     most_common_value := most_common_value r;
     most_common_value_fraction := most_common_value_fraction r;
     std := std r;
     most_common_not_null_value := most_common_not_null_value r;
     most_common_not_null_value_fraction := most_common_not_null_value_fraction r;
     new_in_current_values_count := new_in_current_values_count r;
     unused_in_current_values_count := unused_in_current_values_count r |}.

Definition set_min (v : option scalar) (r : FeaturesProfileStats) : FeaturesProfileStats :=
  {| feature_type := feature_type r; count := count r;
     infinite_count := infinite_count r;
     infinite_fraction := infinite_fraction r;
     missing_count := missing_count r;
     missing_fraction := missing_fraction r; unique := unique r;
     unique_fraction := unique_fraction r; percentile_25 := percentile_25 r;
     percentile_50 := percentile_50 r; percentile_75 := percentile_75 r;
     max := max r; min := v; mean := mean r;
     most_common_value := most_common_value r;
     most_common_value_fraction := most_common_value_fraction r;
     std := std r;
     most_common_not_null_value := most_common_not_null_value r;
     most_common_not_null_value_fraction := most_common_not_null_value_fraction r;
     new_in_current_values_count := new_in_current_values_count r;
     unused_in_current_values_count := unused_in_current_values_count r |}.

Definition set_mean (v : option float) (r : FeaturesProfileStats) : FeaturesProfileStats :=
  {| feature_type := feature_type r; count := count r;
     infinite_count := infinite_count r;
     infinite_fraction := infinite_fraction r;
     missing_count := missing_count r;
     missing_fraction := missing_fraction r; unique := unique r;
     unique_fraction := unique_fraction r; percentile_25 := percentile_25 r;
     percentile_50 := percentile_50 r; percentile_75 := percentile_75 r;
     max := max r; min := min r; mean := v;
     most_common_value := most_common_value r;
     most_common_value_fraction := most_common_value_fraction r;
     std := std r;
     most_common_not_null_value := most_common_not_null_value r;
     most_common_not_null_value_fraction := most_common_not_null_value_fraction r;
     new_in_current_values_count := new_in_current_values_count r;
     unused_in_current_values_count := unused_in_current_values_count r |}.

Definition set_most_common_value (v : option scalar) (r : FeaturesProfileStats) : FeaturesProfileStats :=
  {| feature_type := feature_type r; count := count r;
     infinite_count := infinite_count r;
     infinite_fraction := infinite_fraction r;
     missing_count := missing_count r;
     missing_fraction := missing_fraction r; unique := unique r;
     unique_fraction := unique_fraction r; percentile_25 := percentile_25 r;
     percentile_50 := percentile_50 r; percentile_75 := percentile_75 r;
     max := max r; min := min r; mean := mean r; most_common_value := v;
     most_common_value_fraction := most_common_value_fraction r;
     std := std r;
     most_common_not_null_value := most_common_not_null_value r;
     most_common_not_null_value_fraction := most_common_not_null_value_fraction r;
     new_in_current_values_count := new_in_current_values_count r;
     unused_in_current_values_count := unused_in_current_values_count r |}.

Definition set_most_common_value_fraction (v : option Q) (r : FeaturesProfileStats) : FeaturesProfileStats :=
  {| feature_type := feature_type r; count := count r;
     infinite_count := infinite_count r;
     infinite_fraction := infinite_fraction r;
     missing_count := missing_count r;
     missing_fraction := missing_fraction r; unique := unique r;
     unique_fraction := unique_fraction r; percentile_25 := percentile_25 r;
     percentile_50 := percentile_50 r; percentile_75 := percentile_75 r;
     max := max r; min := min r; mean := mean r;
     most_common_value := most_common_value r;
     most_common_value_fraction := v; std := std r;
     most_common_not_null_value := most_common_not_null_value r;
     most_common_not_null_value_fraction := most_common_not_null_value_fraction r;
     new_in_current_values_count := new_in_current_values_count r;
     unused_in_current_values_count := unused_in_current_values_count r |}.

Definition set_std (v : option float) (r : FeaturesProfileStats) : FeaturesProfileStats :=
  {| feature_type := feature_type r; count := count r;
     infinite_count := infinite_count r;
     infinite_fraction := infinite_fraction r;
     missing_count := missing_count r;
     missing_fraction := missing_fraction r; unique := unique r;
     unique_fraction := unique_fraction r; percentile_25 := percentile_25 r;
     percentile_50 := percentile_50 r; percentile_75 := percentile_75 r;
     max := max r; min := min r; mean := mean r;
     most_common_value := most_common_value r;
     most_common_value_fraction := most_common_value_fraction r; std := v;
     most_common_not_null_value := most_common_not_null_value r;
     most_common_not_null_value_fraction := most_common_not_null_value_fraction r;
     new_in_current_values_count := new_in_current_values_count r;
     unused_in_current_values_count := unused_in_current_values_count r |}.

Definition set_most_common_not_null_value (v : option scalar) (r : FeaturesProfileStats) : FeaturesProfileStats :=
  {| feature_type := feature_type r; count := count r;
     infinite_count := infinite_count r;
     infinite_fraction := infinite_fraction r;
     missing_count := missing_count r;
     missing_fraction := missing_fraction r; unique := unique r;
     unique_fraction := unique_fraction r; percentile_25 := percentile_25 r;
     percentile_50 := percentile_50 r; percentile_75 := percentile_75 r;
     max := max r; min := min r; mean := mean r;
     most_common_value := most_common_value r;
     most_common_value_fraction := most_common_value_fraction r;
     std := std r; most_common_not_null_value := v;
     most_common_not_null_value_fraction := most_common_not_null_value_fraction r;
     new_in_current_values_count := new_in_current_values_count r;
     unused_in_current_values_count := unused_in_current_values_count r |}.

Definition set_most_common_not_null_value_fraction (v : option Q) (r : FeaturesProfileStats) : FeaturesProfileStats :=
  {| feature_type := feature_type r; count := count r;
     infinite_count := infinite_count r;
     infinite_fraction := infinite_fraction r;
     missing_count := missing_count r;
     missing_fraction := missing_fraction r; unique := unique r;
     unique_fraction := unique_fraction r; percentile_25 := percentile_25 r;
     percentile_50 := percentile_50 r; percentile_75 := percentile_75 r;
     max := max r; min := min r; mean := mean r;
     most_common_value := most_common_value r;
     most_common_value_fraction := most_common_value_fraction r;
     std := std r;
     most_common_not_null_value := most_common_not_null_value r;
     most_common_not_null_value_fraction := v;
     new_in_current_values_count := new_in_current_values_count r;
     unused_in_current_values_count := unused_in_current_values_count r |}.

Definition set_new_in_current_values_count (v : option Z) (r : FeaturesProfileStats) : FeaturesProfileStats :=
  {| feature_type := feature_type r; count := count r;
     infinite_count := infinite_count r;
     infinite_fraction := infinite_fraction r;
     missing_count := missing_count r;
     missing_fraction := missing_fraction r; unique := unique r;
     unique_fraction := unique_fraction r; percentile_25 := percentile_25 r;
     percentile_50 := percentile_50 r; percentile_75 := percentile_75 r;
     max := max r; min := min r; mean := mean r;
     most_common_value := most_common_value r;
     most_common_value_fraction := most_common_value_fraction r;
     std := std r;
     most_common_not_null_value := most_common_not_null_value r;
     most_common_not_null_value_fraction := most_common_not_null_value_fraction r;
     new_in_current_values_count := v;
     unused_in_current_values_count := unused_in_current_values_count r |}.

Definition set_unused_in_current_values_count (v : option Z) (r : FeaturesProfileStats) : FeaturesProfileStats :=
  {| feature_type := feature_type r; count := count r;
     infinite_count := infinite_count r;
     infinite_fraction := infinite_fraction r;
     missing_count := missing_count r;
     missing_fraction := missing_fraction r; unique := unique r;
     unique_fraction := unique_fraction r; percentile_25 := percentile_25 r;
     percentile_50 := percentile_50 r; percentile_75 := percentile_75 r;
     max := max r; min := min r; mean := mean r;
     most_common_value := most_common_value r;
     most_common_value_fraction := most_common_value_fraction r;
     std := std r;
     most_common_not_null_value := most_common_not_null_value r;
     most_common_not_null_value_fraction := most_common_not_null_value_fraction r;
     new_in_current_values_count := new_in_current_values_count r;
     unused_in_current_values_count := v |}.
(** ** The analyzer *)

Section Analyzer.

(** Python's [str] on a value of a column. *)
Variable py_str : scalar -> string.

Definition to_str (v : scalar) : scalar := Str (py_str v).

(** [DataProfileAnalyzer._get_features_stats] *)
Definition get_features_stats (feature : series) (feature_type : string)
  : result FeaturesProfileStats :=
  let result := new_stats feature_type in
  let all_values_count := Z.of_nat (length feature) in
  if negb (all_values_count >? 0) then
    (* we have no data, return default stats for en empty dataset *)
    Ok result
  else
    let common_stats := describe feature in
    let missing_count := isnull_sum feature in
    let result := set_missing_count (Some missing_count) result in
    let result := set_count (stat_count common_stats) result in
    let all_values_count := Z.of_nat (length feature) in
    let value_counts := value_counts feature in
    let result :=
      if String.eqb feature_type "num" then
        let infinite_count := isinf_sum feature in
        let result := set_infinite_count (Some infinite_count) result in
        set_infinite_fraction
          (Some (np_round2 (truediv infinite_count all_values_count))) result
      else result in
    let result :=
      set_missing_fraction
        (Some (np_round2 (truediv missing_count all_values_count))) result in
    if count result >? 0 then
      let! first := row value_counts 0 in
      let most_common_value := fst first in
      let most_common_value :=
        if String.eqb feature_type "datetime" then
          (* cast datatime value to str for datetime features *)
          to_str most_common_value
        else most_common_value in
      let result := set_most_common_value (Some most_common_value) result in
      let result :=
        set_most_common_value_fraction
          (Some (np_round2 (truediv (Z.of_nat (snd first)) all_values_count)))
          result in
      let unique := nunique feature in
      let result := set_unique (Some unique) result in
      let result :=
        set_unique_fraction
          (Some (np_round2 (truediv unique all_values_count))) result in
      let! result :=
        if isnull most_common_value then
          let! second := row value_counts 1 in
          let result :=
            set_most_common_not_null_value (Some (fst second)) result in
          Ok (set_most_common_not_null_value_fraction
                (Some (np_round2
                         (truediv (Z.of_nat (snd second)) all_values_count)))
                result)
        else Ok result in
      let result :=
        if String.eqb feature_type "num" then
          let result := set_max (Some (series_max feature)) result in
          let result := set_min (Some (series_min feature)) result in
          let std := stat_std common_stats in
          let result :=
            if root_isnan std then set_std None result
            else set_std (Some (np_round_root std)) result in
          let result :=
            set_mean (Some (np_round (stat_mean common_stats))) result in
          let result :=
            set_percentile_25 (Some (np_round (stat_25 common_stats))) result in
          let result :=
            set_percentile_50 (Some (np_round (stat_50 common_stats))) result in
          set_percentile_75 (Some (np_round (stat_75 common_stats))) result
        else result in
      let result :=
        if String.eqb feature_type "datetime" then
          (* cast datatime value to str for datetime features *)
          let result := set_max (Some (to_str (series_max feature))) result in
          set_min (Some (to_str (series_min feature))) result
        else result in
      Ok result
    else Ok result.

(** A dataset: the columns of a [pd.DataFrame] by name. *)
Definition df_getitem (dataset : gmap string series) (name : string)
  : result series :=
  match dataset !! name with
  | Some column => Ok column
  | None => Raise (KeyError name)
  end.

(** [name in dataset] *)
Definition df_contains (name : string) (dataset : gmap string series) : bool :=
  match dataset !! name with
  | Some _ => true
  | None => false
  end.

(** Modelled from the spec: the utility-columns record of
    [evidently.analyzers.utils], of which the analyzer reads the optional
    target and date column names. *)
Record DatasetUtilityColumns : Type := {
  date : option string;
  target : option string
}.

(** Modelled from the spec: the column-role mapping [DatasetColumns] of
    [evidently.analyzers.utils], as [process_columns] returns it: the
    utility columns and the three lists of feature names. *)
Record DatasetColumns : Type := {
  utility_columns : DatasetUtilityColumns;
  num_feature_names : list string;
  cat_feature_names : list string;
  datetime_feature_names : list string
}.

(** The comprehension
    [{name: self._get_features_stats(dataset[name], feature_type) for name in names}],
    from the dict built so far. *)
Fixpoint features_stats (dataset : gmap string series) (feature_type : string)
    (names : list string) (acc : gmap string FeaturesProfileStats)
  : result (gmap string FeaturesProfileStats) :=
  match names with
  | [] => Ok acc
  | feature_name :: rest =>
      let! column := df_getitem dataset feature_name in
      let! stats := get_features_stats column feature_type in
      features_stats dataset feature_type rest (<[feature_name := stats]> acc)
  end.

(** Truth value of an optional column name: [None] and the empty string
    are false. *)
Definition truthy (name : option string) : bool :=
  match name with
  | Some s => negb (String.eqb s "")
  | None => false
  end.

(** [DataProfileAnalyzer._calculate_stats] *)
Definition calculate_stats (dataset : gmap string series)
    (columns : DatasetColumns) (task : option string)
  : result DataProfileStats :=
  let! num := features_stats dataset "num" (num_feature_names columns) ∅ in
  let! cat := features_stats dataset "cat" (cat_feature_names columns) ∅ in
  let date_list :=
    match date (utility_columns columns) with
    | Some d =>
        if truthy (Some d) then datetime_feature_names columns ++ [d]
        else datetime_feature_names columns
    | None => datetime_feature_names columns
    end in
  let! datetime := features_stats dataset "datetime" date_list ∅ in
  let result :=
    {| num_features_stats := Some num; cat_features_stats := Some cat;
       datetime_features_stats := Some datetime; target_stats := None |} in
  match target (utility_columns columns) with
  | Some target_name =>
      if df_contains target_name dataset then
        let! column := df_getitem dataset target_name in
        let! stats :=
          match task with
          | Some "classification" => get_features_stats column "cat"
          | _ => get_features_stats column "num"
          end in
        Ok {| num_features_stats := Some num; cat_features_stats := Some cat;
              datetime_features_stats := Some datetime;
              target_stats := Some (<[target_name := stats]> ∅) |}
      else Ok result
  | None => Ok result
  end.

(** *** Python sets of column values *)

(** [set(values)]: a value already in the set is not added again. *)
Fixpoint py_set (values : series) : series :=
  match values with
  | [] => []
  | x :: rest => x :: List.filter (fun y => negb (py_eqb x y)) (py_set rest)
  end.

(** [x in s] *)
Definition set_contains (s : series) (x : scalar) : bool := existsb (py_eqb x) s.

(** [a - b] *)
Definition set_difference (a b : series) : series :=
  List.filter (fun x => negb (set_contains b x)) a.

Definition len (s : series) : Z := Z.of_nat (length s).

(** The body of the loop over the categorical features of the reference:
    the record of [feature_name] after both counts are assigned. *)
Definition drift_feature (reference_data current_data : gmap string series)
    (feature_name : string) (cat_feature_stats : FeaturesProfileStats)
  : result FeaturesProfileStats :=
  let! current_column := df_getitem current_data feature_name in
  let current_values_set := py_set (unique_values current_column) in
  let! reference_values_set :=
    if df_contains feature_name reference_data then
      let! reference_column := df_getitem reference_data feature_name in
      Ok (py_set (unique_values reference_column))
    else Ok [] in
  let new_in_current_values_count :=
    len (set_difference current_values_set reference_values_set) in
  let unused_in_current_values_count :=
    len (set_difference reference_values_set current_values_set) in
  let! both_have_nans :=
    let! current_column := df_getitem current_data feature_name in
    if hasnans current_column then
      let! reference_column := df_getitem reference_data feature_name in
      Ok (hasnans reference_column)
    else Ok false in
  let new_in_current_values_count :=
    if both_have_nans then new_in_current_values_count - 1
    else new_in_current_values_count in
  let unused_in_current_values_count :=
    if both_have_nans then unused_in_current_values_count - 1
    else unused_in_current_values_count in
  let cat_feature_stats :=
    set_new_in_current_values_count (Some new_in_current_values_count)
      cat_feature_stats in
  Ok (set_unused_in_current_values_count
        (Some unused_in_current_values_count) cat_feature_stats).

(** The loop itself, over the items still to be visited; each record is
    replaced under its own name. *)
Fixpoint drift_loop (reference_data current_data : gmap string series)
    (items : list (string * FeaturesProfileStats))
    (cat_features_stats : gmap string FeaturesProfileStats)
  : result (gmap string FeaturesProfileStats) :=
  match items with
  | [] => Ok cat_features_stats
  | (feature_name, cat_feature_stats) :: rest =>
      let! annotated :=
        drift_feature reference_data current_data feature_name
          cat_feature_stats in
      drift_loop reference_data current_data rest
        (<[feature_name := annotated]> cat_features_stats)
  end.

Record DataProfileAnalyzerResults : Type := {
  columns : DatasetColumns;
  reference_features_stats : DataProfileStats;
  current_features_stats : option DataProfileStats
}.

(** [DataProfileAnalyzer.calculate], from the column roles
    [process_columns] has returned and the task of the column mapping. *)
Definition calculate (reference_data : gmap string series)
    (current_data : option (gmap string series))
    (columns : DatasetColumns) (task : option string)
  : result DataProfileAnalyzerResults :=
  let! reference_features_stats := calculate_stats reference_data columns task in
  match current_data with
  | Some current_data =>
      let! current_features_stats := calculate_stats current_data columns task in
      let! reference_features_stats :=
        match cat_features_stats reference_features_stats with
        | Some cat =>
            (* calculate additional stats of representation reference dataset
               values in the current dataset *)
            let! cat :=
              drift_loop reference_data current_data (map_to_list cat) cat in
            Ok {| num_features_stats := num_features_stats reference_features_stats;
                  cat_features_stats := Some cat;
                  datetime_features_stats :=
                    datetime_features_stats reference_features_stats;
                  target_stats := target_stats reference_features_stats |}
        | None => Ok reference_features_stats
        end in
      Ok {| columns := columns;
            reference_features_stats := reference_features_stats;
            current_features_stats := Some current_features_stats |}
  | None =>
      Ok {| columns := columns;
            reference_features_stats := reference_features_stats;
            current_features_stats := None |}
  end.

(** *** The record of a non-empty column, field by field

    What [get_features_stats] assigns, read off the branches it takes;
    [get_features_stats_profile] below proves that the calculator returns
    exactly this record. *)

(** The value stored for a table index: text for a datetime feature. *)
Definition cast (feature_type : string) (v : scalar) : scalar :=
  if String.eqb feature_type "datetime" then to_str v else v.

Definition profile_of (feature : series) (feature_type : string)
  : FeaturesProfileStats :=
  let total := Z.of_nat (length feature) in
  let num := String.eqb feature_type "num" in
  let datetime := String.eqb feature_type "datetime" in
  let has_values := Z.of_nat (length (dropna feature)) >? 0 in
  let table := value_counts feature in
  let first := if has_values then nth_error table 0 else None in
  let second :=
    match first with
    | Some e =>
        if isnull (cast feature_type (fst e)) then nth_error table 1 else None
    | None => None
    end in
  let fraction (n : Z) := np_round2 (truediv n total) in
  let summary := describe feature in
  {| feature_type := feature_type;
     count := Z.of_nat (length (dropna feature));
     infinite_count := if num then Some (isinf_sum feature) else None;
     infinite_fraction :=
       if num then Some (fraction (isinf_sum feature)) else None;
     missing_count := Some (isnull_sum feature);
     missing_fraction := Some (fraction (isnull_sum feature));
     unique := if has_values then Some (nunique feature) else None;
     unique_fraction :=
       if has_values then Some (fraction (nunique feature)) else None;
     percentile_25 :=
       if has_values && num then Some (np_round (stat_25 summary)) else None;
     percentile_50 :=
       if has_values && num then Some (np_round (stat_50 summary)) else None;
     percentile_75 :=
       if has_values && num then Some (np_round (stat_75 summary)) else None;
     max :=
       if has_values then
         if datetime then Some (to_str (series_max feature))
         else if num then Some (series_max feature) else None
       else None;
     min :=
       if has_values then
         if datetime then Some (to_str (series_min feature))
         else if num then Some (series_min feature) else None
       else None;
     mean :=
       if has_values && num then Some (np_round (stat_mean summary)) else None;
     most_common_value := option_map (fun e => cast feature_type (fst e)) first;
     most_common_value_fraction :=
       option_map (fun e => fraction (Z.of_nat (snd e))) first;
     std :=
       if has_values && num then
         if root_isnan (stat_std summary) then None
         else Some (np_round_root (stat_std summary))
       else None;
     most_common_not_null_value := option_map fst second;
     most_common_not_null_value_fraction :=
       option_map (fun e => fraction (Z.of_nat (snd e))) second;
     new_in_current_values_count := None;
     unused_in_current_values_count := None |}.

End Analyzer.

(** ** Notions the statements use *)

(** The record a bucket holds for [item], if the bucket is there and has
    the name. *)
Definition bucket_lookup (features : option (gmap string FeaturesProfileStats))
    (item : string) : option FeaturesProfileStats :=
  match features with
  | Some features => features !! item
  | None => None
  end.






(** The two drift counts [calculate] has left on the reference record of
    a categorical feature. *)
Definition drift_counts (res : result DataProfileAnalyzerResults)
    (feature_name : string) : option (option Z * option Z) :=
  match res with
  | Ok res =>
      match cat_features_stats (reference_features_stats res) with
      | Some cat =>
          match cat !! feature_name with
          | Some r => Some (new_in_current_values_count r,
                            unused_in_current_values_count r)
          | None => None
          end
      | None => None
      end
  | Raise _ => None
  end.

(** Column roles with one categorical feature and nothing else. *)
Definition one_categorical (feature_name : string) : DatasetColumns :=
  {| utility_columns := {| date := None; target := None |};
     num_feature_names := [];
     cat_feature_names := [feature_name];
     datetime_feature_names := [] |}.

(** A dataset of one column. *)
Definition frame (feature_name : string) (column : series) : gmap string series :=
  {[ feature_name := column ]}.

(** No missing marker of [a] is the same object as one of [b]. *)
Definition markers_disjoint (a b : series) : Prop :=
  forall i j, In (NA i) a -> In (NA j) b -> i <> j.


(** The dataset has a column of this name. *)
Definition present (dataset : gmap string series) (name : string) : Prop :=
  is_Some (dataset !! name).

(** [bucket] has exactly the names of [names], each with the record the
    calculator returns for the column of that name. *)
Definition bucket_holds (py_str : scalar -> string)
    (dataset : gmap string series) (feature_type : string)
    (names : list string) (bucket : gmap string FeaturesProfileStats) : Prop :=
  forall k r,
    bucket !! k = Some r <->
    In k names /\
    exists column, dataset !! k = Some column /\
                   get_features_stats py_str column feature_type = Ok r.

(** The names of the datetime bucket: the datetime features and, when it
    is set and not empty, the date column. *)
Definition date_names (columns : DatasetColumns) : list string :=
  match date (utility_columns columns) with
  | Some d =>
      if String.eqb d "" then datetime_feature_names columns
      else datetime_feature_names columns ++ [d]
  | None => datetime_feature_names columns
  end.

(** The columns the profiler reads without asking whether they are
    there. *)
Definition declared_names (columns : DatasetColumns) : list string :=
  num_feature_names columns ++ cat_feature_names columns ++ date_names columns.

(** The feature type the target is profiled with. *)
Definition target_type (task : option string) : string :=
  if decide (task = Some "classification") then "cat" else "num".

(** The target bucket [calculate_stats] builds. *)
Definition target_holds (py_str : scalar -> string)
    (dataset : gmap string series) (columns : DatasetColumns)
    (task : option string)
    (bucket : option (gmap string FeaturesProfileStats)) : Prop :=
  match target (utility_columns columns) with
  | Some target_name =>
      match dataset !! target_name with
      | Some column =>
          exists r,
            get_features_stats py_str column (target_type task) = Ok r /\
            bucket = Some {[ target_name := r ]}
      | None => bucket = None
      end
  | None => bucket = None
  end.


(** The corrected count of the values of [a] that [b] lacks. *)
Definition corrected_difference (a b : series) : Z :=
  len (set_difference (py_set (unique_values a)) (py_set (unique_values b)))
  - (if hasnans a && hasnans b then 1 else 0).

(** A small dataset pair with one numeric and one categorical feature and
    a target. *)
Definition sample_columns : DatasetColumns :=
  {| utility_columns := {| date := None; target := Some "y" |};
     num_feature_names := ["n"];
     cat_feature_names := ["f"];
     datetime_feature_names := [] |}.

Definition sample_reference : gmap string series :=
  <[ "n" := [Num 1; Num 2; Inf false] ]>
    (<[ "y" := [Str "p"; Str "q"; Str "p"] ]>
       (frame "f" [Str "a"; Str "b"; NA 0])).


(** * Properties *)

(** ** Access to a profile by feature name *)

Lemma getitem_in_cons features rest item :
  getitem_in (features :: rest) item =
    match bucket_lookup features item with
    | Some r => Ok r
    | None => getitem_in rest item
    end.
Proof. destruct features as [m|]; reflexivity. Qed.

Lemma getitem_in_raise bs item :
  (forall b, In b bs -> bucket_lookup b item = None) <->
  getitem_in bs item = Raise (KeyError item).
Proof.
  induction bs as [|b bs IH].
  - simpl. split; [reflexivity | intros _ b []].
  - rewrite getitem_in_cons. split.
    + intros H. rewrite (H b (or_introl eq_refl)).
      apply IH. intros b' Hb'. apply H. right. exact Hb'.
    + destruct (bucket_lookup b item) eqn:Hb; [discriminate|].
      intros H b' [<-|Hb']; [exact Hb|].
      apply IH; assumption.
Qed.

Lemma fold_update_lookup bs (acc : gmap string FeaturesProfileStats) item :
  fold_left
    (fun result features =>
       match features with
       | Some features => dict_update result features
       | None => result
       end) bs acc !! item =
  fold_left
    (fun found features =>
       match bucket_lookup features item with
       | Some r => Some r
       | None => found
       end) bs (acc !! item).
Proof.
  revert acc. induction bs as [|b bs IH]; intros acc; [reflexivity|].
  simpl. rewrite IH. f_equal.
  destruct b as [m|]; simpl; [|reflexivity].
  unfold dict_update. rewrite lookup_union.
  destruct (m !! item), (acc !! item); reflexivity.
Qed.

Lemma getitem_nested (self : DataProfileStats) (item : string) :
  getitem self item =
    match bucket_lookup (target_stats self) item with
    | Some r => Ok r
    | None =>
    match bucket_lookup (datetime_features_stats self) item with
    | Some r => Ok r
    | None =>
    match bucket_lookup (cat_features_stats self) item with
    | Some r => Ok r
    | None =>
    match bucket_lookup (num_features_stats self) item with
    | Some r => Ok r
    | None => Raise (KeyError item)
    end end end end.
Proof. unfold getitem, buckets. rewrite !getitem_in_cons. reflexivity. Qed.

(** C8: [__getitem__] tries the buckets in the order target, datetime,
    categorical, numeric and returns the record of the first one that has
    the name; it raises [KeyError] exactly when no bucket has the name, and
    the exception is what any continuation of the call yields. *)
Theorem getitem_first_bucket (self : DataProfileStats) (item : string) :
  getitem self item =
    match bucket_lookup (target_stats self) item with
    | Some r => Ok r
    | None =>
    match bucket_lookup (datetime_features_stats self) item with
    | Some r => Ok r
    | None =>
    match bucket_lookup (cat_features_stats self) item with
    | Some r => Ok r
    | None =>
    match bucket_lookup (num_features_stats self) item with
    | Some r => Ok r
    | None => Raise (KeyError item)
    end end end end
  /\ ((forall b, In b (buckets self) -> bucket_lookup b item = None) <->
      getitem self item = Raise (KeyError item))
  /\ (forall (B : Type) (k : FeaturesProfileStats -> result B),
        (forall b, In b (buckets self) -> bucket_lookup b item = None) ->
        bind (getitem self item) k = Raise (KeyError item)).
Proof.
  split; [|split].
  - apply getitem_nested.
  - apply getitem_in_raise.
  - intros B k H. apply getitem_in_raise in H.
    unfold getitem. rewrite H. reflexivity.
Qed.

(** C10: [get_all_features] maps a name to the record of the last bucket,
    in the order target, datetime, categorical, numeric, that has it; when
    all four buckets have the name this is the numeric record while
    [__getitem__] returns the target record; when exactly one bucket has
    the name the two agree. *)
Theorem get_all_features_last_bucket (self : DataProfileStats) (item : string) :
  get_all_features self !! item =
    match bucket_lookup (num_features_stats self) item with
    | Some r => Some r
    | None =>
    match bucket_lookup (cat_features_stats self) item with
    | Some r => Some r
    | None =>
    match bucket_lookup (datetime_features_stats self) item with
    | Some r => Some r
    | None => bucket_lookup (target_stats self) item
    end end end
  /\ (forall rt rd rc rn,
        bucket_lookup (target_stats self) item = Some rt ->
        bucket_lookup (datetime_features_stats self) item = Some rd ->
        bucket_lookup (cat_features_stats self) item = Some rc ->
        bucket_lookup (num_features_stats self) item = Some rn ->
        get_all_features self !! item = Some rn /\ getitem self item = Ok rt)
  /\ (forall i b r,
        nth_error (buckets self) i = Some b ->
        bucket_lookup b item = Some r ->
        (forall j b', j <> i -> nth_error (buckets self) j = Some b' ->
                      bucket_lookup b' item = None) ->
        get_all_features self !! item = Some r /\ getitem self item = Ok r).
Proof.
  assert (Hall : get_all_features self !! item =
    match bucket_lookup (num_features_stats self) item with
    | Some r => Some r
    | None =>
    match bucket_lookup (cat_features_stats self) item with
    | Some r => Some r
    | None =>
    match bucket_lookup (datetime_features_stats self) item with
    | Some r => Some r
    | None => bucket_lookup (target_stats self) item
    end end end).
  { unfold get_all_features. rewrite fold_update_lookup.
    unfold buckets. simpl. rewrite lookup_empty.
    destruct (bucket_lookup (num_features_stats self) item),
             (bucket_lookup (cat_features_stats self) item),
             (bucket_lookup (datetime_features_stats self) item),
             (bucket_lookup (target_stats self) item); reflexivity. }
  pose proof (getitem_nested self item) as Hget.
  split; [exact Hall|split].
  - intros rt rd rc rn Ht Hd Hc Hn. rewrite Hall, Hget, Ht, Hn. auto.
  - intros i b r Hi Hb Hothers. rewrite Hall, Hget.
    assert (H0 := Hothers 0%nat (target_stats self)).
    assert (H1 := Hothers 1%nat (datetime_features_stats self)).
    assert (H2 := Hothers 2%nat (cat_features_stats self)).
    assert (H3 := Hothers 3%nat (num_features_stats self)).
    unfold buckets in Hi, H0, H1, H2, H3. simpl in H0, H1, H2, H3.
    destruct i as [|[|[|[|i]]]]; simpl in Hi.
    + injection Hi as <-. rewrite Hb, H1, H2, H3 by (auto; lia). auto.
    + injection Hi as <-. rewrite Hb, H0, H2, H3 by (auto; lia). auto.
    + injection Hi as <-. rewrite Hb, H0, H1, H3 by (auto; lia). auto.
    + injection Hi as <-. rewrite Hb, H0, H1, H2 by (auto; lia). auto.
    + destruct i; discriminate.
Qed.

(** ** Rounding *)







(** ** Distinct values and frequency tables *)

Lemma pd_eqb_refl a : pd_eqb a a = true.
Proof.
  destruct a; simpl; auto.
  - apply eqb_reflx.
  - apply Qeq_bool_iff. reflexivity.
  - apply String.eqb_refl.
  - apply Z.eqb_refl.
Qed.


Lemma pd_eqb_trans a b c :
  pd_eqb a b = true -> pd_eqb b c = true -> pd_eqb a c = true.
Proof.
  destruct a, b, c; simpl; try discriminate; auto.
  - rewrite !eqb_true_iff. congruence.
  - rewrite !Qeq_bool_iff. intros H1 H2. rewrite H1. exact H2.
  - rewrite !String.eqb_eq. congruence.
  - rewrite !Z.eqb_eq. congruence.
Qed.

Lemma pd_eqb_isnull a b : pd_eqb a b = true -> isnull a = isnull b.
Proof. destruct a, b; simpl; try discriminate; auto. Qed.

Lemma unique_values_incl l x : In x (unique_values l) -> In x l.
Proof.
  revert x. induction l as [|a l IH]; simpl; intros x; [tauto|].
  intros [->|H]; [auto|]. right. apply IH.
  apply filter_In in H. tauto.
Qed.

Lemma unique_values_complete l x :
  In x l -> exists y, In y (unique_values l) /\ pd_eqb y x = true.
Proof.
  induction l as [|a l IH]; simpl; [tauto|].
  intros [->|H].
  - exists x. split; [auto|apply pd_eqb_refl].
  - destruct (IH H) as (y & Hy & Hyx).
    destruct (pd_eqb a y) eqn:Hay.
    + exists a. split; [auto|]. eapply pd_eqb_trans; eauto.
    + exists y. split; [|exact Hyx]. right. apply filter_In. rewrite Hay. auto.
Qed.

Lemma filter_length_le {A} (f : A -> bool) l :
  (length (List.filter f l) <= length l)%nat.
Proof. induction l as [|a l IH]; simpl; [lia|]. destruct (f a); simpl; lia. Qed.

Lemma unique_values_length l : (length (unique_values l) <= length l)%nat.
Proof.
  induction l as [|a l IH]; simpl; [lia|].
  pose proof (filter_length_le (fun y => negb (pd_eqb a y)) (unique_values l)). lia.
Qed.

Lemma StronglySorted_filter {A} (R : A -> A -> Prop) f l :
  StronglySorted R l -> StronglySorted R (List.filter f l).
Proof.
  induction 1 as [|a l Hs IH Hf]; simpl; [constructor|].
  destruct (f a); [|exact IH].
  constructor; [exact IH|].
  rewrite List.Forall_forall in *. intros x Hx. apply filter_In in Hx. apply Hf. tauto.
Qed.





Lemma unique_values_distinct l :
  StronglySorted (fun a b => pd_eqb a b = false) (unique_values l).
Proof.
  induction l as [|x l IH]; simpl; [constructor|].
  constructor.
  - apply StronglySorted_filter. exact IH.
  - apply List.Forall_forall. intros y Hy. apply filter_In in Hy.
    destruct Hy as [_ Hy]. destruct (pd_eqb x y); [discriminate|reflexivity].
Qed.

Lemma insert_desc_perm e t : Permutation (insert_desc e t) (e :: t).
Proof.
  induction t as [|h t IH]; simpl; [reflexivity|].
  destruct (snd h <=? snd e)%nat; [reflexivity|].
  rewrite IH. apply perm_swap.
Qed.

Lemma sort_desc_perm t : Permutation (sort_desc t) t.
Proof.
  induction t as [|e t IH]; simpl; [reflexivity|].
  rewrite insert_desc_perm. constructor. exact IH.
Qed.





Lemma value_counts_perm feature :
  Permutation (value_counts feature)
    (map (fun k => (k, occurrences k feature)) (unique_values feature)).
Proof. apply sort_desc_perm. Qed.

Lemma value_counts_length feature :
  length (value_counts feature) = length (unique_values feature).
Proof.
  rewrite (Permutation_length (value_counts_perm _)). apply length_map.
Qed.

Lemma value_counts_first feature :
  feature <> [] -> exists first rest, value_counts feature = first :: rest.
Proof.
  intros H. pose proof (value_counts_length feature) as Hl.
  destruct feature as [|x l]; [contradiction|].
  destruct (value_counts (x :: l)) as [|first rest]; [discriminate|eauto].
Qed.

Lemma value_counts_key feature v :
  In v feature ->
  exists e, In e (value_counts feature) /\ pd_eqb (fst e) v = true.
Proof.
  intros Hv. destruct (unique_values_complete feature v Hv) as (y & Hy & Hyv).
  exists (y, occurrences y feature). split; [|exact Hyv].
  eapply Permutation_in; [symmetry; apply value_counts_perm|].
  apply in_map_iff. eauto.
Qed.

Lemma value_counts_single_null feature first :
  value_counts feature = [first] -> isnull (fst first) = true ->
  dropna feature = [].
Proof.
  intros Hvc Hnull. destruct (dropna feature) as [|v l] eqn:Hd; [reflexivity|].
  assert (Hv : In v (dropna feature)) by (rewrite Hd; left; reflexivity).
  apply filter_In in Hv. destruct Hv as [Hv Hnn].
  destruct (value_counts_key feature v Hv) as (e & He & Hev).
  rewrite Hvc in He. destruct He as [<-|[]].
  apply pd_eqb_isnull in Hev. unfold notnull in Hnn.
  rewrite <- Hev, Hnull in Hnn. discriminate.
Qed.


(** ** The calculator returns the record read off its branches *)

Lemma get_features_stats_profile py_str feature ft :
  feature <> [] ->
  get_features_stats py_str feature ft = Ok (profile_of py_str feature ft).
Proof.
  intros Hne.
  destruct (value_counts_first feature Hne) as (first & rest & Hvc).
  pose proof (value_counts_single_null feature first) as Hsingle.
  unfold get_features_stats, profile_of, cast.
  assert (Hlen : (Z.of_nat (length feature) >? 0) = true).
  { destruct feature; [contradiction|]. apply Z.gtb_lt. simpl length. lia. }
  rewrite Hlen. cbn [negb]. rewrite Hvc in *.
  destruct (String.eqb ft "num") eqn:Hnum;
    cbn [count set_missing_fraction set_infinite_fraction set_infinite_count
         set_count set_missing_count describe stat_count];
    (destruct (Z.of_nat (length (dropna feature)) >? 0) eqn:Hcount;
     [|reflexivity]);
    cbn [row nth_error bind];
    (destruct (String.eqb ft "datetime") eqn:Hdt;
     [apply String.eqb_eq in Hdt; subst ft; try discriminate Hnum|]);
    cbn [isnull to_str andb option_map];
    try (destruct (isnull (fst first)) eqn:Hnull;
         [destruct rest as [|second rest];
          [rewrite Hsingle in Hcount by reflexivity; discriminate Hcount|]|]);
    cbn [row nth_error bind option_map];
    try destruct (root_isnan (stat_std (describe feature))) eqn:Hstd;
    try reflexivity.
Qed.

(** ** Counts and fractions *)













(** C4: on a column of length zero the calculator returns, for every
    feature type, the record with [feature_type] set, [count = 0] and every
    other field [None]: the result is the freshly built record, nothing
    is computed on the way. *)
Theorem empty_column_defaults (py_str : scalar -> string) (ft : string) :
  exists r,
    get_features_stats py_str [] ft = Ok r /\
    feature_type r = ft /\ count r = 0 /\
    infinite_count r = None /\ infinite_fraction r = None /\
    missing_count r = None /\ missing_fraction r = None /\
    unique r = None /\ unique_fraction r = None /\
    percentile_25 r = None /\ percentile_50 r = None /\
    percentile_75 r = None /\
    max r = None /\ min r = None /\ mean r = None /\
    most_common_value r = None /\ most_common_value_fraction r = None /\
    std r = None /\
    most_common_not_null_value r = None /\
    most_common_not_null_value_fraction r = None /\
    new_in_current_values_count r = None /\
    unused_in_current_values_count r = None.
Proof. exists (new_stats ft). repeat split. Qed.








Lemma series_nil_dec (feature : series) : {feature = nil} + {feature <> nil}.
Proof. destruct feature; [left; reflexivity|right; discriminate]. Qed.






(** ** Extrema *)








(** ** Summary statistics of a finite column *)













(** ** Statistics of a numeric column *)






(** ** Drift counts *)

(** C1: the counts [calculate] writes for Example B when the two columns
    hold strings and one shared missing marker, as object columns do: the
    set difference leaves the marker out, the correction still subtracts
    one, and both counts come out 0 where the claim has 1. *)
Theorem drift_example_shared_marker (py_str : scalar -> string) :
  drift_counts
    (calculate py_str
       (frame "f" [Str "a"; Str "b"; NA 0])
       (Some (frame "f" [Str "a"; Str "c"; NA 0]))
       (one_categorical "f") None) "f" = Some (Some 0, Some 0).
Proof. vm_compute. reflexivity. Qed.

(** C2: the counts [calculate] writes when reference and current hold the
    same values and one shared missing marker: the two sets are identical,
    both differences are empty, the correction subtracts one, and both
    counts come out -1 where the claim has 0 and nothing negative. *)
Theorem drift_identical_shared_marker (py_str : scalar -> string) :
  drift_counts
    (calculate py_str
       (frame "f" [Str "a"; NA 0])
       (Some (frame "f" [Str "a"; NA 0]))
       (one_categorical "f") None) "f" = Some (Some (-1), Some (-1)).
Proof. vm_compute. reflexivity. Qed.

(** The two counts of one feature present in both datasets: the sizes of
    the two set differences, each less one when both columns have a
    missing value. *)
Lemma drift_feature_counts reference_data current_data feature_name
    cat_feature_stats current_column reference_column :
  current_data !! feature_name = Some current_column ->
  reference_data !! feature_name = Some reference_column ->
  let current_values_set := py_set (unique_values current_column) in
  let reference_values_set := py_set (unique_values reference_column) in
  let correction :=
    if hasnans current_column && hasnans reference_column then 1 else 0 in
  drift_feature reference_data current_data feature_name cat_feature_stats =
    Ok (set_unused_in_current_values_count
          (Some (len (set_difference reference_values_set current_values_set)
                 - correction))
          (set_new_in_current_values_count
             (Some (len (set_difference current_values_set reference_values_set)
                    - correction))
             cat_feature_stats)).
Proof.
  intros Hc Hr. unfold drift_feature, df_getitem, df_contains.
  rewrite Hc, Hr. cbn [bind].
  destruct (hasnans current_column); cbn [bind andb].
  - destruct (hasnans reference_column); [reflexivity|].
    rewrite !Z.sub_0_r. reflexivity.
  - rewrite !Z.sub_0_r. reflexivity.
Qed.

Lemma py_eqb_refl a : py_eqb a a = true.
Proof.
  destruct a; simpl.
  - apply Nat.eqb_refl.
  - apply eqb_reflx.
  - apply Qeq_bool_iff. reflexivity.
  - apply String.eqb_refl.
  - apply Z.eqb_refl.
Qed.

Lemma py_eqb_trans a b c :
  py_eqb a b = true -> py_eqb b c = true -> py_eqb a c = true.
Proof.
  destruct a, b, c; simpl; try discriminate; auto.
  - rewrite !Nat.eqb_eq. congruence.
  - rewrite !eqb_true_iff. congruence.
  - rewrite !Qeq_bool_iff. intros H1 H2. rewrite H1. exact H2.
  - rewrite !String.eqb_eq. congruence.
  - rewrite !Z.eqb_eq. congruence.
Qed.

Lemma py_eqb_marker i b : py_eqb (NA i) b = true -> b = NA i.
Proof.
  destruct b; simpl; try discriminate.
  intros H. apply Nat.eqb_eq in H. congruence.
Qed.

Lemma py_set_incl l x : In x (py_set l) -> In x l.
Proof.
  revert x. induction l as [|a l IH]; simpl; intros x; [tauto|].
  intros [->|H]; [auto|]. right. apply IH. apply filter_In in H. tauto.
Qed.

Lemma py_set_complete l x :
  In x l -> exists y, In y (py_set l) /\ py_eqb y x = true.
Proof.
  induction l as [|a l IH]; simpl; [tauto|].
  intros [->|H].
  - exists x. split; [auto|apply py_eqb_refl].
  - destruct (IH H) as (y & Hy & Hyx).
    destruct (py_eqb a y) eqn:Hay.
    + exists a. split; [auto|]. eapply py_eqb_trans; eauto.
    + exists y. split; [|exact Hyx]. right. apply filter_In. rewrite Hay. auto.
Qed.

(** A column with a missing value puts one of its markers into its set
    of distinct values. *)
Lemma values_set_marker column :
  hasnans column = true ->
  exists i, In (NA i) column /\ In (NA i) (py_set (unique_values column)).
Proof.
  intros H. apply existsb_exists in H. destruct H as (v & Hv & Hnull).
  destruct (unique_values_complete column v Hv) as (y & Hy & Hyv).
  assert (Hynull : isnull y = true) by (rewrite (pd_eqb_isnull _ _ Hyv); exact Hnull).
  destruct y as [i| | | |]; try discriminate.
  destruct (py_set_complete _ _ Hy) as (z & Hz & Hzy).
  destruct z as [k| | | |]; try discriminate.
  simpl in Hzy. apply Nat.eqb_eq in Hzy. subst k.
  exists i. split; [apply unique_values_incl; exact Hy|exact Hz].
Qed.

Lemma marker_not_contained (b : series) i :
  (forall j, In (NA j) b -> i <> j) ->
  set_contains (py_set (unique_values b)) (NA i) = false.
Proof.
  intros Hd. unfold set_contains.
  destruct (existsb (py_eqb (NA i)) (py_set (unique_values b))) eqn:H;
    [|reflexivity].
  apply existsb_exists in H. destruct H as (w & Hw & Hiw).
  apply py_eqb_marker in Hiw. subst w.
  apply py_set_incl, unique_values_incl in Hw.
  exfalso. exact (Hd i Hw eq_refl).
Qed.

Lemma set_difference_marker a b i :
  In (NA i) (py_set (unique_values a)) ->
  (forall j, In (NA j) b -> i <> j) ->
  1 <= len (set_difference (py_set (unique_values a)) (py_set (unique_values b))).
Proof.
  intros Hin Hd.
  assert (H : In (NA i) (set_difference (py_set (unique_values a))
                                        (py_set (unique_values b)))).
  { apply filter_In. split; [exact Hin|].
    rewrite (marker_not_contained b i Hd). reflexivity. }
  unfold len.
  destruct (set_difference (py_set (unique_values a)) (py_set (unique_values b)));
    [destruct H|simpl length; lia].
Qed.

(** When no missing marker of one column is a marker of the other, as
    with [float64] columns, the corrected counts are not negative. *)
Lemma drift_counts_nonneg_fresh current_column reference_column :
  markers_disjoint current_column reference_column ->
  let current_values_set := py_set (unique_values current_column) in
  let reference_values_set := py_set (unique_values reference_column) in
  let correction :=
    if hasnans current_column && hasnans reference_column then 1 else 0 in
  0 <= len (set_difference current_values_set reference_values_set) - correction /\
  0 <= len (set_difference reference_values_set current_values_set) - correction.
Proof.
  intros Hd. cbv zeta.
  destruct (hasnans current_column) eqn:Hc;
    destruct (hasnans reference_column) eqn:Hr; cbn [andb];
    try (unfold len; split; lia).
  destruct (values_set_marker _ Hc) as (i & Hi & Hiset).
  destruct (values_set_marker _ Hr) as (j & Hj & Hjset).
  pose proof (set_difference_marker current_column reference_column i Hiset
                (fun j' Hj' => Hd i j' Hi Hj')).
  pose proof (set_difference_marker reference_column current_column j Hjset
                (fun i' Hi' Heq => Hd i' j Hi' Hj (eq_sym Heq))).
  lia.
Qed.

(** Example B with two distinct markers. *)
Lemma drift_example_fresh_markers (py_str : scalar -> string) :
  drift_counts
    (calculate py_str
       (frame "f" [Str "a"; Str "b"; NA 0])
       (Some (frame "f" [Str "a"; Str "c"; NA 1]))
       (one_categorical "f") None) "f" = Some (Some 1, Some 1).
Proof. vm_compute. reflexivity. Qed.

Lemma set_difference_nil (a b : series) :
  forallb (set_contains b) a = true -> set_difference a b = [].
Proof.
  unfold set_difference. induction a as [|x a IH]; simpl; [reflexivity|].
  intros H. apply andb_true_iff in H. destruct H as [Hx Ha].
  rewrite Hx. simpl. apply IH. exact Ha.
Qed.

(** With no marker in common, two sets that contain each other give the
    counts 0 and 0. *)
Lemma drift_counts_zero_fresh current_column reference_column :
  markers_disjoint current_column reference_column ->
  let current_values_set := py_set (unique_values current_column) in
  let reference_values_set := py_set (unique_values reference_column) in
  let correction :=
    if hasnans current_column && hasnans reference_column then 1 else 0 in
  forallb (set_contains reference_values_set) current_values_set = true ->
  forallb (set_contains current_values_set) reference_values_set = true ->
  len (set_difference current_values_set reference_values_set) - correction = 0 /\
  len (set_difference reference_values_set current_values_set) - correction = 0.
Proof.
  intros Hd. cbv zeta. intros Hcr Hrc.
  rewrite (set_difference_nil _ _ Hcr), (set_difference_nil _ _ Hrc).
  destruct (hasnans current_column) eqn:Hc; [|split; reflexivity].
  destruct (hasnans reference_column) eqn:Hr; [|split; reflexivity].
  exfalso.
  destruct (values_set_marker _ Hc) as (i & Hi & Hiset).
  rewrite forallb_forall in Hcr. specialize (Hcr _ Hiset).
  rewrite (marker_not_contained reference_column i) in Hcr; [discriminate|].
  intros j Hj. exact (Hd i j Hi Hj).
Qed.

Lemma drift_loop_spec reference_data current_data items :
  forall stats stats',
    NoDup (items.*1) ->
    drift_loop reference_data current_data items stats = Ok stats' ->
    (forall name r, (name, r) ∈ items ->
       exists r', drift_feature reference_data current_data name r = Ok r' /\
                  stats' !! name = Some r') /\
    (forall name, name ∉ items.*1 -> stats' !! name = stats !! name).
Proof.
  induction items as [|[name0 r0] items IH]; intros stats stats' Hnd Hloop.
  - simpl in Hloop. injection Hloop as <-. split; [|reflexivity].
    intros name r H. inversion H.
  - simpl in Hloop. rewrite fmap_cons in Hnd. apply NoDup_cons in Hnd.
    destruct Hnd as [Hnotin Hnd].
    destruct (drift_feature reference_data current_data name0 r0) as [r0'|e]
      eqn:Hfeat; [|discriminate].
    cbn [bind] in Hloop.
    destruct (IH _ _ Hnd Hloop) as [Hin Hout].
    split.
    + intros name r H. apply elem_of_cons in H. destruct H as [[= -> ->]|H].
      * exists r0'. split; [exact Hfeat|].
        rewrite (Hout name0 Hnotin). apply lookup_insert_eq.
      * apply Hin. exact H.
    + intros name H. rewrite fmap_cons in H. apply not_elem_of_cons in H.
      destruct H as [Hne H]. rewrite (Hout name H).
      apply lookup_insert_ne. simpl in Hne. intros ->. apply Hne. reflexivity.
Qed.

(** What [calculate] leaves in the categorical bucket of the reference:
    every record the profiler has put there, with the two counts of
    [drift_feature] assigned. *)
Lemma calculate_annotates py_str reference_data current_data columns task
    res reference_stats cat :
  calculate py_str reference_data (Some current_data) columns task = Ok res ->
  calculate_stats py_str reference_data columns task = Ok reference_stats ->
  cat_features_stats reference_stats = Some cat ->
  exists cat',
    cat_features_stats (reference_features_stats res) = Some cat' /\
    forall name r, cat !! name = Some r ->
      exists r', drift_feature reference_data current_data name r = Ok r' /\
                 cat' !! name = Some r'.
Proof.
  intros Hcalc Href Hcat. unfold calculate in Hcalc.
  rewrite Href in Hcalc. cbn [bind] in Hcalc.
  destruct (calculate_stats py_str current_data columns task) as [cur|e];
    [|discriminate].
  cbn [bind] in Hcalc. rewrite Hcat in Hcalc.
  destruct (drift_loop reference_data current_data (map_to_list cat) cat)
    as [cat'|e] eqn:Hloop; [|discriminate].
  cbn [bind] in Hcalc. injection Hcalc as <-.
  exists cat'. split; [reflexivity|].
  intros name r Hr.
  destruct (drift_loop_spec _ _ _ _ _ (NoDup_fst_map_to_list cat) Hloop)
    as [Hin _].
  apply Hin. apply elem_of_map_to_list. exact Hr.
Qed.

(** ** Instances *)


Lemma get_all_features_last_bucket_witness :
  get_all_features
    {| num_features_stats := Some {[ "y" := new_stats "num" ]};
       cat_features_stats := Some {[ "y" := new_stats "cat" ]};
       datetime_features_stats := Some {[ "y" := new_stats "datetime" ]};
       target_stats := Some {[ "y" := new_stats "cat" ]} |} !! "y"
    = Some (new_stats "num") /\
  getitem
    {| num_features_stats := Some {[ "y" := new_stats "num" ]};
       cat_features_stats := Some {[ "y" := new_stats "cat" ]};
       datetime_features_stats := Some {[ "y" := new_stats "datetime" ]};
       target_stats := Some {[ "y" := new_stats "cat" ]} |} "y"
    = Ok (new_stats "cat").
Proof.
  apply (proj1 (proj2 (get_all_features_last_bucket _ "y"))
           (new_stats "cat") (new_stats "datetime") (new_stats "cat")
           (new_stats "num"));
    apply lookup_singleton_eq.
Defined.

(** * Further properties *)

(** ** The calculator on any column *)

Lemma get_features_stats_ok py_str (feature : series) ft :
  exists r,
    get_features_stats py_str feature ft = Ok r /\
    feature_type r = ft /\
    new_in_current_values_count r = None /\
    unused_in_current_values_count r = None.
Proof.
  destruct (series_nil_dec feature) as [->|Hne].
  - exists (new_stats ft). repeat split.
  - rewrite (get_features_stats_profile py_str feature ft Hne).
    exists (profile_of py_str feature ft). repeat split.
Qed.





























Lemma get_all_features_nested (self : DataProfileStats) (item : string) :
  get_all_features self !! item =
    match bucket_lookup (num_features_stats self) item with
    | Some r => Some r
    | None =>
    match bucket_lookup (cat_features_stats self) item with
    | Some r => Some r
    | None =>
    match bucket_lookup (datetime_features_stats self) item with
    | Some r => Some r
    | None => bucket_lookup (target_stats self) item
    end end end.
Proof.
  unfold get_all_features. rewrite fold_update_lookup.
  unfold buckets. simpl. rewrite lookup_empty.
  destruct (bucket_lookup (num_features_stats self) item),
           (bucket_lookup (cat_features_stats self) item),
           (bucket_lookup (datetime_features_stats self) item),
           (bucket_lookup (target_stats self) item); reflexivity.
Qed.

(** X8: [__getitem__] succeeds exactly on the keys of
    [get_all_features], and raises [KeyError] exactly on the others. *)
Theorem getitem_succeeds_on_flattened_keys (self : DataProfileStats)
    (item : string) :
  (is_Some (get_all_features self !! item) <->
   exists r, getitem self item = Ok r) /\
  (get_all_features self !! item = None <->
   getitem self item = Raise (KeyError item)).
Proof.
  rewrite get_all_features_nested, getitem_nested.
  destruct (bucket_lookup (num_features_stats self) item),
           (bucket_lookup (cat_features_stats self) item),
           (bucket_lookup (datetime_features_stats self) item),
           (bucket_lookup (target_stats self) item);
    (split; split;
     [ intros _; eexists; reflexivity
     | intros _; eexists; reflexivity
     | discriminate
     | discriminate ]) ||
    (split; split;
     [ intros [? ?]; discriminate
     | intros [? ?]; discriminate
     | reflexivity
     | reflexivity ]).
Qed.

(** ** The profiler *)

Lemma first_absent (dataset : gmap string series) (names : list string) :
  Forall (present dataset) names \/
  exists pre n post,
    names = pre ++ n :: post /\ Forall (present dataset) pre /\
    dataset !! n = None.
Proof.
  induction names as [|n names IH].
  - left. constructor.
  - destruct (dataset !! n) as [col|] eqn:Hn.
    + destruct IH as [IH|(pre & m & post & -> & Hpre & Hm)].
      * left. constructor; [exists col; exact Hn|exact IH].
      * right. exists (n :: pre), m, post. split; [reflexivity|].
        split; [constructor; [exists col; exact Hn|exact Hpre]|exact Hm].
    + right. exists [], n, names. split; [reflexivity|].
      split; [constructor|exact Hn].
Qed.

Lemma features_stats_raise py_str dataset ft pre n post :
  Forall (present dataset) pre -> dataset !! n = None ->
  forall acc,
    features_stats py_str dataset ft (pre ++ n :: post) acc = Raise (KeyError n).
Proof.
  intros Hpre Hn. induction Hpre as [|k pre [col Hk] _ IH]; intros acc; simpl.
  - unfold df_getitem. rewrite Hn. reflexivity.
  - unfold df_getitem. rewrite Hk. cbn [bind].
    destruct (get_features_stats_ok py_str col ft) as (r & -> & _).
    cbn [bind]. apply IH.
Qed.

Lemma features_stats_lookup py_str dataset ft names :
  Forall (present dataset) names ->
  forall acc, exists m,
    features_stats py_str dataset ft names acc = Ok m /\
    forall k r,
      m !! k = Some r <->
      (In k names /\
       exists column, dataset !! k = Some column /\
                      get_features_stats py_str column ft = Ok r) \/
      (~ In k names /\ acc !! k = Some r).
Proof.
  induction 1 as [|n names [col Hn] _ IH]; intros acc.
  - exists acc. split; [reflexivity|]. intros k r. simpl. tauto.
  - simpl. unfold df_getitem. rewrite Hn. cbn [bind].
    destruct (get_features_stats_ok py_str col ft) as (st & Hst & _).
    rewrite Hst. cbn [bind].
    destruct (IH (<[n := st]> acc)) as (m & Hm & Hlook).
    exists m. split; [exact Hm|]. intros k r. rewrite Hlook. clear Hlook.
    destruct (decide (n = k)) as [->|Hne].
    + rewrite lookup_insert_eq. split.
      * intros [[Hin Hcol]|[Hnot [= <-]]].
        -- left. split; [right; exact Hin|exact Hcol].
        -- left. split; [left; reflexivity|]. exists col. auto.
      * intros [[_ (col' & Hcol' & Hr)]|[Hnot _]].
        -- destruct (in_dec String.string_dec k names) as [Hin|Hnot].
           ++ left. split; [exact Hin|]. exists col'. auto.
           ++ right. split; [exact Hnot|].
              rewrite Hn in Hcol'. injection Hcol' as <-.
              rewrite Hst in Hr. injection Hr as <-. reflexivity.
        -- exfalso. apply Hnot. left. reflexivity.
    + rewrite lookup_insert_ne by exact Hne. split.
      * intros [[Hin Hcol]|[Hnot Hacc]].
        -- left. split; [right; exact Hin|exact Hcol].
        -- right. split; [|exact Hacc]. intros [Heq|Hin]; [congruence|auto].
      * intros [[[Heq|Hin] Hcol]|[Hnot Hacc]].
        -- congruence.
        -- left. auto.
        -- right. split; [|exact Hacc]. intros Hin. apply Hnot. right. exact Hin.
Qed.

Lemma features_stats_bucket py_str dataset ft names :
  Forall (present dataset) names ->
  exists m,
    features_stats py_str dataset ft names ∅ = Ok m /\
    bucket_holds py_str dataset ft names m.
Proof.
  intros H. destruct (features_stats_lookup py_str dataset ft names H ∅)
    as (m & Hm & Hlook).
  exists m. split; [exact Hm|]. intros k r. rewrite Hlook.
  rewrite lookup_empty. split; [intros [?|[_ ?]]; [assumption|discriminate]|auto].
Qed.

Lemma target_match {A} (task : option string) (a b : A) :
  match task with
  | Some "classification" => a
  | _ => b
  end = if decide (task = Some "classification") then a else b.
Proof.
  destruct (decide (task = Some "classification")) as [->|Hne]; [reflexivity|].
  destruct task as [s|]; [|reflexivity].
  assert (Hs : s <> "classification") by congruence. clear Hne.
  repeat (destruct s as [|[[] [] [] [] [] [] [] []] s]; try reflexivity).
  contradiction.
Qed.

Lemma date_list_names (columns : DatasetColumns) :
  match date (utility_columns columns) with
  | Some d =>
      if truthy (Some d) then datetime_feature_names columns ++ [d]
      else datetime_feature_names columns
  | None => datetime_feature_names columns
  end = date_names columns.
Proof.
  unfold date_names, truthy. destruct (date (utility_columns columns)) as [d|];
    [|reflexivity].
  destruct (String.eqb d ""); reflexivity.
Qed.

Lemma calculate_stats_cases py_str dataset columns task :
  (Forall (present dataset) (declared_names columns) /\
   exists num cat datetime tgt,
     calculate_stats py_str dataset columns task =
       Ok {| num_features_stats := Some num; cat_features_stats := Some cat;
             datetime_features_stats := Some datetime; target_stats := tgt |} /\
     bucket_holds py_str dataset "num" (num_feature_names columns) num /\
     bucket_holds py_str dataset "cat" (cat_feature_names columns) cat /\
     bucket_holds py_str dataset "datetime" (date_names columns) datetime /\
     target_holds py_str dataset columns task tgt) \/
  (exists n,
     In n (declared_names columns) /\ dataset !! n = None /\
     calculate_stats py_str dataset columns task = Raise (KeyError n)).
Proof.
  unfold calculate_stats, declared_names. rewrite date_list_names.
  destruct (first_absent dataset (num_feature_names columns))
    as [Hnum|(pre & n & post & Heq & Hpre & Hn)].
  2:{ right. exists n. rewrite Heq.
      rewrite (features_stats_raise py_str dataset "num" pre n post Hpre Hn).
      split; [|split; [exact Hn|reflexivity]].
      apply in_or_app. left. apply in_or_app. right. left. reflexivity. }
  destruct (features_stats_bucket py_str dataset "num" _ Hnum)
    as (num & -> & Hbnum). cbn [bind].
  destruct (first_absent dataset (cat_feature_names columns))
    as [Hcat|(pre & n & post & Heq & Hpre & Hn)].
  2:{ right. exists n. rewrite Heq.
      rewrite (features_stats_raise py_str dataset "cat" pre n post Hpre Hn).
      split; [|split; [exact Hn|reflexivity]].
      apply in_or_app. right. apply in_or_app. left.
      apply in_or_app. right. left. reflexivity. }
  destruct (features_stats_bucket py_str dataset "cat" _ Hcat)
    as (cat & -> & Hbcat). cbn [bind].
  destruct (first_absent dataset (date_names columns))
    as [Hdt|(pre & n & post & Heq & Hpre & Hn)].
  2:{ right. exists n. rewrite Heq.
      rewrite (features_stats_raise py_str dataset "datetime" pre n post Hpre Hn).
      split; [|split; [exact Hn|reflexivity]].
      apply in_or_app. right. apply in_or_app. right.
      apply in_or_app. right. left. reflexivity. }
  destruct (features_stats_bucket py_str dataset "datetime" _ Hdt)
    as (datetime & -> & Hbdt). cbn [bind].
  left. split.
  { apply Forall_app. split; [exact Hnum|].
    apply Forall_app. split; [exact Hcat|exact Hdt]. }
  exists num, cat, datetime. unfold target_holds.
  destruct (target (utility_columns columns)) as [target_name|].
  2:{ exists None. split; [reflexivity|]. split; [exact Hbnum|].
      split; [exact Hbcat|]. split; [exact Hbdt|reflexivity]. }
  unfold df_contains, df_getitem.
  destruct (dataset !! target_name) as [column|].
  2:{ exists None. split; [reflexivity|]. split; [exact Hbnum|].
      split; [exact Hbcat|]. split; [exact Hbdt|reflexivity]. }
  cbn [bind]. rewrite target_match.
  fold (target_type task).
  replace (if decide (task = Some "classification")
           then get_features_stats py_str column "cat"
           else get_features_stats py_str column "num")
    with (get_features_stats py_str column (target_type task))
    by (unfold target_type; destruct (decide (task = Some "classification"));
        reflexivity).
  destruct (get_features_stats_ok py_str column (target_type task))
    as (r & Hr & _).
  rewrite Hr. cbn [bind].
  exists (Some {[ target_name := r ]}).
  split; [reflexivity|]. split; [exact Hbnum|].
  split; [exact Hbcat|]. split; [exact Hbdt|]. exists r. auto.
Qed.


Lemma stats_record_type py_str (column : series) ft r :
  get_features_stats py_str column ft = Ok r ->
  feature_type r = ft /\
  new_in_current_values_count r = None /\
  unused_in_current_values_count r = None.
Proof.
  intros Hr. destruct (get_features_stats_ok py_str column ft)
    as (r0 & Hr0 & Hft & Hnew & Hun).
  rewrite Hr0 in Hr. injection Hr as <-. auto.
Qed.

(** X10: in a profile [_calculate_stats] returns, the numeric, categorical
    and datetime buckets are all present; each has exactly the declared
    names, the record of a name being the calculator's result on that
    column with the bucket's type, so [is_numeric], [is_category] and
    [is_datetime] hold in the respective bucket. *)
Theorem calculate_stats_buckets (py_str : scalar -> string)
    (dataset : gmap string series) (columns : DatasetColumns)
    (task : option string) (p : DataProfileStats) :
  calculate_stats py_str dataset columns task = Ok p ->
  exists num cat datetime,
    num_features_stats p = Some num /\
    cat_features_stats p = Some cat /\
    datetime_features_stats p = Some datetime /\
    bucket_holds py_str dataset "num" (num_feature_names columns) num /\
    bucket_holds py_str dataset "cat" (cat_feature_names columns) cat /\
    bucket_holds py_str dataset "datetime" (date_names columns) datetime /\
    (forall k r, num !! k = Some r -> is_numeric r = true) /\
    (forall k r, cat !! k = Some r -> is_category r = true) /\
    (forall k r, datetime !! k = Some r -> is_datetime r = true).
Proof.
  intros Hp.
  destruct (calculate_stats_cases py_str dataset columns task)
    as [(_ & num & cat & dt & tgt & Heq & Hnum & Hcat & Hdt & _)
       |(n & _ & _ & Hraise)]; [|congruence].
  rewrite Heq in Hp. injection Hp as <-.
  exists num, cat, dt. cbn.
  split; [reflexivity|]. split; [reflexivity|]. split; [reflexivity|].
  split; [exact Hnum|]. split; [exact Hcat|]. split; [exact Hdt|].
  split; [|split]; intros k r Hk.
  - apply Hnum in Hk. destruct Hk as (_ & col & _ & Hr).
    apply stats_record_type in Hr. unfold is_numeric.
    rewrite (proj1 Hr). reflexivity.
  - apply Hcat in Hk. destruct Hk as (_ & col & _ & Hr).
    apply stats_record_type in Hr. unfold is_category.
    rewrite (proj1 Hr). reflexivity.
  - apply Hdt in Hk. destruct Hk as (_ & col & _ & Hr).
    apply stats_record_type in Hr. unfold is_datetime.
    rewrite (proj1 Hr). reflexivity.
Qed.

(** X11: the target bucket.  Without a declared target, or with one the
    dataset lacks, the bucket is absent and no error is raised; otherwise
    it holds the target alone, profiled as categorical when the task is
    classification and as numeric in every other case. *)
Theorem calculate_stats_target (py_str : scalar -> string)
    (dataset : gmap string series) (columns : DatasetColumns)
    (task : option string) (p : DataProfileStats) :
  calculate_stats py_str dataset columns task = Ok p ->
  (target (utility_columns columns) = None -> target_stats p = None) /\
  (forall t,
     target (utility_columns columns) = Some t -> dataset !! t = None ->
     target_stats p = None) /\
  (forall t column,
     target (utility_columns columns) = Some t ->
     dataset !! t = Some column ->
     exists r,
       target_stats p = Some {[ t := r ]} /\
       get_features_stats py_str column
         (if decide (task = Some "classification") then "cat" else "num")
         = Ok r /\
       (task = Some "classification" -> is_category r = true) /\
       (task <> Some "classification" -> is_numeric r = true)).
Proof.
  intros Hp.
  destruct (calculate_stats_cases py_str dataset columns task)
    as [(_ & num & cat & dt & tgt & Heq & _ & _ & _ & Htgt)
       |(n & _ & _ & Hraise)]; [|congruence].
  rewrite Heq in Hp. injection Hp as <-. cbn [target_stats].
  unfold target_holds in Htgt.
  split; [|split].
  - intros Ht. rewrite Ht in Htgt. exact Htgt.
  - intros t Ht Hd. rewrite Ht, Hd in Htgt. exact Htgt.
  - intros t column Ht Hd. rewrite Ht, Hd in Htgt.
    destruct Htgt as (r & Hr & ->). exists r.
    split; [reflexivity|]. split; [exact Hr|].
    apply stats_record_type in Hr. destruct Hr as (Hft & _).
    unfold target_type in Hft. unfold is_category, is_numeric. rewrite Hft.
    destruct (decide (task = Some "classification")); split; intros H;
      try reflexivity; contradiction.
Qed.





Lemma drift_feature_corrected reference_data current_data name r
    current_column reference_column :
  current_data !! name = Some current_column ->
  reference_data !! name = Some reference_column ->
  drift_feature reference_data current_data name r =
    Ok (set_unused_in_current_values_count
          (Some (corrected_difference reference_column current_column))
          (set_new_in_current_values_count
             (Some (corrected_difference current_column reference_column)) r)).
Proof.
  intros Hc Hr.
  rewrite (drift_feature_counts _ _ _ r _ _ Hc Hr). cbv zeta.
  unfold corrected_difference.
  rewrite (andb_comm (hasnans reference_column)). reflexivity.
Qed.







(** X15: exchanging the roles of the two datasets exchanges the two drift
    counts of a feature. *)
Theorem drift_counts_swap (reference_data current_data : gmap string series)
    (name : string) (r : FeaturesProfileStats)
    (reference_column current_column : series) :
  reference_data !! name = Some reference_column ->
  current_data !! name = Some current_column ->
  exists forth back,
    drift_feature reference_data current_data name r = Ok forth /\
    drift_feature current_data reference_data name r = Ok back /\
    new_in_current_values_count forth = unused_in_current_values_count back /\
    unused_in_current_values_count forth = new_in_current_values_count back.
Proof.
  intros Hr Hc.
  rewrite (drift_feature_corrected _ _ _ r _ _ Hc Hr).
  rewrite (drift_feature_corrected _ _ _ r _ _ Hr Hc).
  eexists. eexists. split; [reflexivity|]. split; [reflexivity|].
  split; reflexivity.
Qed.

Lemma drift_counts_swap_witness :
  exists forth back,
    drift_feature (frame "f" [Str "a"; Str "b"]) (frame "f" [Str "a"; Str "c"; Str "d"])
      "f" (new_stats "cat") = Ok forth /\
    drift_feature (frame "f" [Str "a"; Str "c"; Str "d"]) (frame "f" [Str "a"; Str "b"])
      "f" (new_stats "cat") = Ok back /\
    new_in_current_values_count forth = unused_in_current_values_count back /\
    unused_in_current_values_count forth = new_in_current_values_count back.
Proof.
  apply (drift_counts_swap (frame "f" [Str "a"; Str "b"])
           (frame "f" [Str "a"; Str "c"; Str "d"]) "f" (new_stats "cat")
           [Str "a"; Str "b"] [Str "a"; Str "c"; Str "d"]);
    apply lookup_singleton_eq.
Defined.

Lemma py_set_length (l : series) : (length (py_set l) <= length l)%nat.
Proof.
  induction l as [|a l IH]; simpl; [lia|].
  pose proof (filter_length_le (fun y => negb (py_eqb a y)) (py_set l)). lia.
Qed.

Lemma corrected_difference_range (a b : series) :
  -1 <= corrected_difference a b <= Z.of_nat (length a) /\
  (hasnans a && hasnans b = false -> 0 <= corrected_difference a b).
Proof.
  unfold corrected_difference, len, set_difference.
  pose proof (filter_length_le
                (fun x => negb (set_contains (py_set (unique_values b)) x))
                (py_set (unique_values a))).
  pose proof (py_set_length (unique_values a)).
  pose proof (unique_values_length a).
  destruct (hasnans a && hasnans b); split; try lia; discriminate.
Qed.

(** X16: the loop body changes the two drift fields of the record and
    nothing else; each count is at least -1 and at most the number of rows
    of the column it counts values of, and it is not negative unless both
    columns have a missing value. *)
Theorem drift_counts_range (reference_data current_data : gmap string series)
    (name : string) (r : FeaturesProfileStats)
    (reference_column current_column : series) :
  reference_data !! name = Some reference_column ->
  current_data !! name = Some current_column ->
  exists new unused,
    drift_feature reference_data current_data name r =
      Ok (set_unused_in_current_values_count (Some unused)
            (set_new_in_current_values_count (Some new) r)) /\
    -1 <= new <= Z.of_nat (length current_column) /\
    -1 <= unused <= Z.of_nat (length reference_column) /\
    (hasnans current_column = false \/ hasnans reference_column = false ->
     0 <= new /\ 0 <= unused).
Proof.
  intros Hr Hc.
  rewrite (drift_feature_corrected _ _ _ r _ _ Hc Hr).
  eexists. eexists. split; [reflexivity|].
  destruct (corrected_difference_range current_column reference_column)
    as [H1 H1'].
  destruct (corrected_difference_range reference_column current_column)
    as [H2 H2'].
  split; [exact H1|]. split; [exact H2|].
  intros Hnan. split; [apply H1'|apply H2'];
    destruct Hnan as [-> | ->]; rewrite ?andb_false_r; reflexivity.
Qed.

Lemma drift_counts_range_witness :
  exists new unused,
    drift_feature (frame "f" [Str "a"; NA 0]) (frame "f" [Str "b"; Str "c"])
      "f" (new_stats "cat") =
      Ok (set_unused_in_current_values_count (Some unused)
            (set_new_in_current_values_count (Some new) (new_stats "cat"))) /\
    -1 <= new <= 2 /\ -1 <= unused <= 2 /\ 0 <= new /\ 0 <= unused.
Proof.
  destruct (drift_counts_range (frame "f" [Str "a"; NA 0])
              (frame "f" [Str "b"; Str "c"]) "f" (new_stats "cat")
              [Str "a"; NA 0] [Str "b"; Str "c"])
    as (new & unused & H & Hn & Hu & Hpos);
    [apply lookup_singleton_eq|apply lookup_singleton_eq|].
  exists new, unused. split; [exact H|]. split; [exact Hn|].
  split; [exact Hu|]. apply Hpos. left. reflexivity.
Defined.




(** X18: when the two columns share no marker object, both drift counts
    are non-negative, and they are 0 when each set of distinct values
    contains the other. *)
Theorem drift_counts_distinct_markers
    (reference_data current_data : gmap string series)
    (name : string) (r : FeaturesProfileStats)
    (reference_column current_column : series) :
  reference_data !! name = Some reference_column ->
  current_data !! name = Some current_column ->
  markers_disjoint current_column reference_column ->
  exists new unused,
    drift_feature reference_data current_data name r =
      Ok (set_unused_in_current_values_count (Some unused)
            (set_new_in_current_values_count (Some new) r)) /\
    0 <= new /\ 0 <= unused /\
    (forallb (set_contains (py_set (unique_values reference_column)))
       (py_set (unique_values current_column)) = true ->
     forallb (set_contains (py_set (unique_values current_column)))
       (py_set (unique_values reference_column)) = true ->
     new = 0 /\ unused = 0).
Proof.
  intros Hr Hc Hd.
  rewrite (drift_feature_corrected _ _ _ r _ _ Hc Hr).
  eexists. eexists. split; [reflexivity|].
  unfold corrected_difference. rewrite (andb_comm (hasnans reference_column)).
  destruct (drift_counts_nonneg_fresh current_column reference_column Hd)
    as [H1 H2].
  split; [exact H1|]. split; [exact H2|].
  intros Hcr Hrc.
  exact (drift_counts_zero_fresh current_column reference_column Hd Hcr Hrc).
Qed.

Lemma drift_counts_distinct_markers_witness :
  exists new unused,
    drift_feature (frame "f" [Num 1; NA 0; Num 2]) (frame "f" [NA 1; Num 1; Num 3])
      "f" (new_stats "cat") =
      Ok (set_unused_in_current_values_count (Some unused)
            (set_new_in_current_values_count (Some new) (new_stats "cat"))) /\
    0 <= new /\ 0 <= unused.
Proof.
  destruct (drift_counts_distinct_markers (frame "f" [Num 1; NA 0; Num 2])
              (frame "f" [NA 1; Num 1; Num 3]) "f" (new_stats "cat")
              [Num 1; NA 0; Num 2] [NA 1; Num 1; Num 3])
    as (new & unused & H & Hn & Hu & _);
    [apply lookup_singleton_eq|apply lookup_singleton_eq| |].
  { intros i j [Hi|[Hi|[Hi|[]]]] [Hj|[Hj|[Hj|[]]]]; try discriminate.
    injection Hi as <-. injection Hj as <-. discriminate. }
  exists new, unused. auto.
Defined.

Lemma calculate_stats_buckets_witness :
  exists p num cat datetime,
    calculate_stats (fun _ => "") sample_reference sample_columns
      (Some "classification") = Ok p /\
    num_features_stats p = Some num /\
    cat_features_stats p = Some cat /\
    datetime_features_stats p = Some datetime /\
    (forall k r, num !! k = Some r -> is_numeric r = true) /\
    (forall k r, cat !! k = Some r -> is_category r = true) /\
    (forall k r, datetime !! k = Some r -> is_datetime r = true).
Proof.
  destruct (calculate_stats (fun _ => "") sample_reference sample_columns
              (Some "classification")) as [p|e] eqn:H;
    [|vm_compute in H; discriminate].
  destruct (calculate_stats_buckets _ _ _ _ p H)
    as (num & cat & dt & Hn & Hc & Hd & _ & _ & _ & H1 & H2 & H3).
  exists p, num, cat, dt. auto 10.
Defined.

Lemma calculate_stats_target_witness :
  exists p r,
    calculate_stats (fun _ => "") sample_reference sample_columns
      (Some "classification") = Ok p /\
    target_stats p = Some {[ "y" := r ]} /\ is_category r = true.
Proof.
  destruct (calculate_stats (fun _ => "") sample_reference sample_columns
              (Some "classification")) as [p|e] eqn:H;
    [|vm_compute in H; discriminate].
  destruct (calculate_stats_target _ _ _ _ p H) as (_ & _ & Ht).
  destruct (Ht "y" [Str "p"; Str "q"; Str "p"] eq_refl eq_refl)
    as (r & Hr & _ & Hcat & _).
  exists p, r. split; [reflexivity|]. split; [exact Hr|].
  apply Hcat. reflexivity.
Defined.





